(** * check_samplesheet.py: the row checker and its driver

    A shallow embedding of [bin/check_samplesheet.py].  Rows are Python
    dicts, i.e. mutable objects that the checker keeps by reference in
    [modified]; they live in an object store indexed by addresses.  The
    methods of [RowChecker] run in a state monad whose state survives a
    raised exception, exactly as the mutations of a Python method survive
    the exception that aborts it. *)

From Stdlib Require Import Ascii String.
From stdpp Require Import base strings gmap list functions pretty.

#[local] Set Warnings "-clear-no-such-hyp".

(** ** Python string primitives *)

Module Py.

(** [len(s)] *)
Definition len (s : string) : nat := String.length s.

(** [s.replace(old, new)] for one-character [old] and [new]. *)
Fixpoint replace (old new : ascii) (s : string) : string :=
  match s with
  | EmptyString => EmptyString
  | String c s' =>
      String (if Ascii.eqb c old then new else c) (replace old new s')
  end.

(** [s[n:]] *)
Fixpoint slice_from (n : nat) (s : string) : string :=
  match n, s with
  | O, _ => s
  | S _, EmptyString => EmptyString
  | S n', String _ s' => slice_from n' s'
  end.

(** [s.endswith(suffix)]: the last [len(suffix)] characters of [s] are
    compared with [suffix]; a suffix longer than [s] never matches. *)
Definition endswith (s suffix : string) : bool :=
  (len suffix <=? len s)%nat
  && String.eqb (slice_from (len s - len suffix) s) suffix.

(** [for c in s]: iterating a [str] yields its one-character strings. *)
Fixpoint iter (s : string) : list string :=
  match s with
  | EmptyString => []
  | String c s' => String c EmptyString :: iter s'
  end.

(** [sep.join(items)] *)
Fixpoint join (sep : string) (items : list string) : string :=
  match items with
  | [] => ""
  | [x] => x
  | x :: rest => x +:+ sep +:+ join sep rest
  end.

(** [s.rfind(c)] for a one-character [c]; [None] stands for Python's -1. *)
Fixpoint rfind (c : ascii) (s : string) : option nat :=
  match s with
  | EmptyString => None
  | String a s' =>
      match rfind c s' with
      | Some k => Some (S k)
      | None => if Ascii.eqb a c then Some 0 else None
      end
  end.

(** [os.path.basename(p)] on a POSIX system:
    [i = p.rfind('/') + 1; return p[i:]]. *)
Definition basename (p : string) : string :=
  let i := match rfind "/"%char p with Some k => S k | None => 0 end in
  slice_from i p.

(** [str(n)] for a non-negative [int]. *)
Definition str (n : nat) : string := pretty n.

(** [c in s] for a one-character [c]. *)
Fixpoint has (c : ascii) (s : string) : bool :=
  match s with
  | EmptyString => false
  | String a s' => Ascii.eqb a c || has c s'
  end.

(** [c * n]: the character [c] repeated [n] times. *)
Fixpoint mul (c : ascii) (n : nat) : string :=
  match n with
  | O => EmptyString
  | S n' => String c (mul c n')
  end.

End Py.

(** ** Object store, exceptions and the monad of the methods *)

(** A row reference: the address of a dict in the store. *)
Abbreviation addr := nat.

Inductive Exception :=
| KeyError (key : string)
| AssertionError (msg : string)
| ValueError.

Inductive Result (A : Type) :=
| Ok (a : A)
| Raise (e : Exception).
Arguments Ok {A} a.
Arguments Raise {A} e.

(** [_seen] and [modified] are the attributes of the [RowChecker]
    instance; [heap] holds the dict behind every row reference. *)
Record State := mkState {
  heap : addr → gmap string string;
  _seen : gset (string * string * string);
  modified : list addr
}.

Definition M (A : Type) : Type := State → Result A * State.

Definition ret {A} (a : A) : M A := λ st, (Ok a, st).

Definition bind {A B} (m : M A) (k : A → M B) : M B :=
  λ st, match m st with
        | (Ok a, st') => k a st'
        | (Raise e, st') => (Raise e, st')
        end.

Definition raise {A} (e : Exception) : M A := λ st, (Raise e, st).

Declare Scope py_scope.
Delimit Scope py_scope with py.
Notation "x <- m ;; k" := (bind m (λ x, k))
  (at level 100, m at next level, right associativity) : py_scope.
Notation "m ;;; k" := (bind m (λ _, k))
  (at level 100, right associativity) : py_scope.
Local Open Scope py_scope.

(** [row[key]] *)
Definition getitem (row : addr) (key : string) : M string :=
  λ st, match heap st row !! key with
        | Some v => (Ok v, st)
        | None => (Raise (KeyError key), st)
        end.

(** [row[key] = v] *)
Definition setitem (row : addr) (key v : string) : M unit :=
  λ st, (Ok tt, mkState (<[row := <[key := v]> (heap st row)]> (heap st))
                        (_seen st) (modified st)).

(** [key in row] *)
Definition contains (row : addr) (key : string) : M bool :=
  λ st, (Ok (bool_decide (is_Some (heap st row !! key))), st).

(** [self._seen.add(t)] *)
Definition seen_add (t : string * string * string) : M unit :=
  λ st, (Ok tt, mkState (heap st) ({[t]} ∪ _seen st) (modified st)).

(** [self.modified.append(row)] *)
Definition modified_append (row : addr) : M unit :=
  λ st, (Ok tt, mkState (heap st) (_seen st) (modified st ++ [row])).

(** ** class RowChecker *)

Definition VALID_FORMATS : string := ".RCC".

(** The column names [RowChecker()] is constructed with. *)
Definition _sample_col : string := "SAMPLE_ID".
Definition _rcc_file : string := "RCC_FILE".
Definition _rcc_file_name : string := "RCC_FILE_NAME".

Definition newline : string := String (ascii_of_nat 10) EmptyString.

Definition sample_required : string := "Sample input is required.".
Definition rcc_required : string := "RCC file is required.".
Definition unrecognized_extension (filename : string) : string :=
  "The RCC file has an unrecognized extension: " +:+ filename +:+ newline
  +:+ "It should be one of: " +:+ Py.join ", " (Py.iter VALID_FORMATS).
Definition not_unique : string :=
  "The pair of sample name and FASTQ must be unique.".

Definition _validate_sample (row : addr) : M unit :=
  s <- getitem row _sample_col ;;
  if (Py.len s <=? 0)%nat then raise (AssertionError sample_required)
  else
    s' <- getitem row _sample_col ;;
    setitem row _sample_col (Py.replace " " "_" s').

Definition _validate_rcc_format (filename : string) : M unit :=
  if negb (existsb (λ extension, Py.endswith filename extension)
                   (Py.iter VALID_FORMATS))
  then raise (AssertionError (unrecognized_extension filename))
  else ret tt.

Definition _validate_rcc_file (row : addr) : M unit :=
  f <- getitem row _rcc_file ;;
  if (Py.len f <=? 0)%nat then raise (AssertionError rcc_required)
  else
    f' <- getitem row _rcc_file ;;
    _validate_rcc_format f' ;;;
    present <- contains row _rcc_file_name ;;
    if negb present then
      g <- getitem row _rcc_file ;;
      setitem row _rcc_file_name (Py.basename g)
    else
      n <- getitem row _rcc_file_name ;;
      if (Py.len n <=? 0)%nat then
        g <- getitem row _rcc_file ;;
        setitem row _rcc_file_name (Py.basename g)
      else ret tt.

Definition validate_and_transform (row : addr) : M unit :=
  _validate_sample row ;;;
  _validate_rcc_file row ;;;
  s <- getitem row _sample_col ;;
  f <- getitem row _rcc_file ;;
  n <- getitem row _rcc_file_name ;;
  seen_add (s, f, n) ;;;
  modified_append row.

(** The body of the [for row in self.modified] loop with its local
    [Counter]; a missing key of a [Counter] reads as 0. *)
Fixpoint rename_loop (seen : gmap string nat) (rows : list addr) : M unit :=
  match rows with
  | [] => ret tt
  | row :: rest =>
      sample <- getitem row _sample_col ;;
      let seen' := <[sample := S (default 0 (seen !! sample))]> seen in
      setitem row _sample_col
        (sample +:+ "_T" +:+ Py.str (default 0 (seen' !! sample))) ;;;
      rename_loop seen' rest
  end.

Definition validate_unique_samples : M unit :=
  λ st,
    if negb (size (_seen st) =? length (modified st))%nat
    then raise (AssertionError not_unique) st
    else rename_loop ∅ (modified st) st.

(** ** The csv module, as far as the driver uses it

    The reader and the writer belong to Python's library; they are given
    here for tables whose cells need no quoting and whose records have one
    cell per column, which is all the driver's own logic depends on. *)

Module csv.

(** Cells of one unquoted line for the delimiter [d]. *)
Fixpoint split (d : ascii) (line : string) : list string :=
  match line with
  | EmptyString => [EmptyString]
  | String c rest =>
      if Ascii.eqb c d then EmptyString :: split d rest
      else match split d rest with
           | [] => [String c EmptyString]
           | cell :: cells => String c cell :: cells
           end
  end.

(** [DictReader.__next__] for a record with one cell per column of the
    header: [dict(zip(self.fieldnames, row))]; a later duplicate of a
    column name overwrites the earlier one.  For a shorter record Python
    fills the missing columns with [None], for a longer one it puts the
    extra cells in a list under the key [None]; such dicts are not dicts
    of strings, and the answer [None] here says that the record is
    outside this model, not that Python yields nothing. *)
Definition DictReader_next (fieldnames cells : list string)
  : option (gmap string string) :=
  if (length cells =? length fieldnames)%nat
  then Some (foldl (λ d kv, <[kv.1 := kv.2]> d) ∅ (zip fieldnames cells))
  else None.

(** [DictWriter._dict_to_list] with [extrasaction="raise"] and
    [restval=""]. *)
Definition _dict_to_list (fieldnames : list string)
    (rowdict : gmap string string) : Result (list string) :=
  if bool_decide (dom rowdict ⊆ list_to_set fieldnames)
  then Ok (map (λ key, default "" (rowdict !! key)) fieldnames)
  else Raise ValueError.

(** A cell is written as it is when it holds no delimiter, quote
    character or line break (minimal quoting). *)
Definition plain (cell : string) : bool :=
  forallb (λ c, negb (bool_decide (c ∈ [","; String (ascii_of_nat 34) "";
                                       String (ascii_of_nat 13) "";
                                       newline])))
          (Py.iter cell).

(** The text of one written record, without its line terminator. *)
Definition line (cells : list string) : option string :=
  if forallb plain cells then Some (Py.join "," cells) else None.

End csv.

(** ** check_samplesheet *)

Inductive Outcome :=
| SystemExit (code : nat) (critical : string)
    (** [logger.critical(...); sys.exit(code)]: no output file is opened *)
| Uncaught (e : Exception) (written : option (list (list string)))
    (** an exception leaves the function; [written] is what the output
        file holds by then, if it was opened *)
| Written (records : list (list string))
    (** normal return: the header and the data records of the output *).

(** The set literal of the source, in the order it is written there (the
    order in which Python joins a set for the message is not fixed). *)
Definition required_columns : list string := ["RCC_FILE"; "SAMPLE_ID"].

(** [for i, row in enumerate(reader)]: the dict read for record [i] is a
    new object; it is stored at address [i]. *)
Fixpoint validate_rows (i : nat) (rows : list (gmap string string))
    (st : State) : option Outcome * State :=
  match rows with
  | [] => (None, st)
  | row :: rest =>
      let st0 := mkState (<[i := row]> (heap st)) (_seen st) (modified st) in
      match validate_and_transform i st0 with
      | (Ok _, st1) => validate_rows (S i) rest st1
      | (Raise (AssertionError error), st1) =>
          (Some (SystemExit 1 (error +:+ " On line " +:+ Py.str (i + 2) +:+ ".")),
           st1)
      | (Raise e, st1) => (Some (Uncaught e None), st1)
      end
  end.

(** [writer.writeheader()] followed by [for row in checker.modified:
    writer.writerow(row)]. *)
Fixpoint write_rows (header : list string) (st : State) (rows : list addr)
    (out : list (list string)) : Outcome :=
  match rows with
  | [] => Written out
  | row :: rest =>
      match csv._dict_to_list header (heap st row) with
      | Ok cells => write_rows header st rest (out ++ [cells])%list
      | Raise e => Uncaught e (Some out)
      end
  end.

(** The state a fresh [RowChecker()] starts from. *)
Definition RowChecker_init : State := mkState (λ _, ∅) ∅ [].

Definition check_samplesheet (fieldnames : list string)
    (rows : list (gmap string string)) : Outcome :=
  if negb (forallb (λ c, bool_decide (c ∈ fieldnames)) required_columns)
  then SystemExit 1
         ("The sample sheet **must** contain these column headers: "
          +:+ Py.join ", " required_columns +:+ ".")
  else
    match validate_rows 0 rows RowChecker_init with
    | (Some stop, _) => stop
    | (None, checker) =>
        let header :=
          if negb (bool_decide ("RCC_FILE_NAME" ∈ fieldnames))
          then (fieldnames ++ ["RCC_FILE_NAME"])%list else fieldnames in
        write_rows header checker (modified checker) [header]
    end.

(** The driver on the lines of a sheet that [sniff_format] reads as
    comma-delimited and that holds no quote character and no blank line:
    the first line is the header.  The dialect is not inferred here; on
    other sheets, and on records with more or fewer cells than the header
    (answer [None]), this says nothing about the run. *)
Definition check_samplesheet_text (lines : list string)
    : option (Outcome) :=
  match lines with
  | [] => None
  | head :: body =>
      let fieldnames := csv.split "," head in
      rows ← mapM (λ l, csv.DictReader_next fieldnames (csv.split "," l)) body;
      Some (check_samplesheet fieldnames rows)
  end.


(** ** Vocabulary of the properties *)

(** The key [validate_and_transform] records for a row: the values of the
    sample, file and file-name columns. *)
Definition key_of (row : gmap string string) : string * string * string :=
  (default "" (row !! _sample_col),
   default "" (row !! _rcc_file),
   default "" (row !! _rcc_file_name)).

(** The states a checker goes through while rows are offered to it, with
    the keys of the accepted rows in the order of their acceptance.  Between
    two calls the caller may create or change dicts the checker does not
    hold. *)
Inductive reaches : list (string * string * string) → State → Prop :=
| reaches_init h :
    reaches [] (mkState h ∅ [])
| reaches_accept ts st row st' :
    reaches ts st →
    validate_and_transform row st = (Ok tt, st') →
    reaches (ts ++ [key_of (heap st' row)]) st'
| reaches_reject ts st row e st' :
    reaches ts st →
    validate_and_transform row st = (Raise e, st') →
    reaches ts st'
| reaches_caller ts st h :
    reaches ts st →
    (∀ a, a ∈ modified st → h a = heap st a) →
    reaches ts (mkState h (_seen st) (modified st)).

(** One operation on the checker, whatever its result. *)
Inductive step (st st' : State) : Prop :=
| step_offer row r :
    validate_and_transform row st = (r, st') → step st st'
| step_unique r :
    validate_unique_samples st = (r, st') → step st st'
| step_caller :
    _seen st' = _seen st → modified st' = modified st →
    (∀ a, a ∈ modified st → heap st' a = heap st a) →
    step st st'.

(** How often [id] occurs in [ids]. *)
Definition occurrences (id : string) (ids : list string) : nat :=
  length (filter (λ x, x = id) ids).

(** The sample identifier of the row at [a]. *)
Definition sample_of (st : State) (a : addr) : string :=
  default "" (heap st a !! _sample_col).

(** The extension test the documentation describes: the file name ends
    with [.RCC]. *)
Definition ends_with_RCC (filename : string) : bool :=
  Py.endswith filename ".RCC".

(** The file-name column holds a non-empty value. *)
Definition named (row : gmap string string) : Prop :=
  ∃ n, row !! _rcc_file_name = Some n ∧ n ≠ "".

(** The extension test as [_validate_rcc_format] performs it. *)
Definition format_ok (filename : string) : bool :=
  existsb (λ extension, Py.endswith filename extension) (Py.iter VALID_FORMATS).

(** What [validate_and_transform] does to the dict of the row it is given,
    and what it raises or records for it: the content of
    [validate_and_transform_run] below. *)
Definition row_effect (row : gmap string string)
    : gmap string string * Result (string * string * string) :=
  match row !! _sample_col with
  | None => (row, Raise (KeyError _sample_col))
  | Some s =>
      if (Py.len s <=? 0)%nat then (row, Raise (AssertionError sample_required))
      else
        let s' := Py.replace " " "_" s in
        let row1 := <[_sample_col := s']> row in
        match row !! _rcc_file with
        | None => (row1, Raise (KeyError _rcc_file))
        | Some f =>
            if (Py.len f <=? 0)%nat
            then (row1, Raise (AssertionError rcc_required))
            else if negb (existsb (λ extension, Py.endswith f extension)
                                  (Py.iter VALID_FORMATS))
            then (row1, Raise (AssertionError (unrecognized_extension f)))
            else
              match row !! _rcc_file_name with
              | Some n =>
                  if (Py.len n <=? 0)%nat
                  then (<[_rcc_file_name := Py.basename f]> row1,
                        Ok (s', f, Py.basename f))
                  else (row1, Ok (s', f, n))
              | None => (<[_rcc_file_name := Py.basename f]> row1,
                         Ok (s', f, Py.basename f))
              end
        end
  end.

(** The shape of a row that was accepted. *)
Definition accepted_form (row : gmap string string) : Prop :=
  ∃ s f n,
    row !! _sample_col = Some s ∧ s ≠ "" ∧ Py.has " " s = false
    ∧ row !! _rcc_file = Some f ∧ f ≠ "" ∧ format_ok f = true
    ∧ row !! _rcc_file_name = Some n ∧ n ≠ "".

(** The invariant that ties the checker to the keys it accepted: [_seen]
    holds exactly those keys, they are the keys the accepted rows still
    have, and every accepted row keeps its accepted shape. *)
Definition consistent (ts : list (string * string * string)) (st : State)
    : Prop :=
  ts = (λ a, key_of (heap st a)) <$> modified st
  ∧ _seen st = list_to_set ts
  ∧ ∀ a, a ∈ modified st → accepted_form (heap st a).

(** The dict of a row after [validate_and_transform] alone, in a checker
    of its own. *)
Definition validated (row : gmap string string)
    : Result (gmap string string) :=
  match validate_and_transform 0 (mkState (λ _, row) ∅ []) with
  | (Ok _, st') => Ok (heap st' 0)
  | (Raise e, _) => Raise e
  end.

(** The cells [DictWriter] lays out for a dict along a header. *)
Definition cells (header : list string) (rowdict : gmap string string)
    : list string :=
  map (λ key, default "" (rowdict !! key)) header.

(** ** Sample inputs *)

(** The dict [csv.DictReader] yields for a record of a two-column sheet. *)
Definition record (sample file : string) : gmap string string :=
  {[ "SAMPLE_ID" := sample; "RCC_FILE" := file ]}.

(** A store with a few such dicts. *)
Definition sample_heap : addr → gmap string string :=
  λ a, match a with
       | 0 => record "S1" "a.RCC"
       | 1 => record "S1" "b.RCC"
       | 2 => record "S 2" "runs/c.RCC"
       | 3 => record "" "d.RCC"
       | 4 => record "S 4" "data.txt"
       | 5 => <[ "RCC_FILE_NAME" := "first" ]> (record "S5" "e.RCC")
       | 6 => record "   " "f.RCC"
       | 7 => record "S1" "a.RCC"
       | 8 => record "S8" "data.C"
       | _ => ∅
       end.

(** A fresh checker over that store, and the checker after the rows at
    some addresses were offered to it in turn. *)
Definition fresh : State := mkState sample_heap ∅ [].

Definition offered (rows : list addr) : State :=
  foldl (λ st row, (validate_and_transform row st).2) fresh rows.

(** ** read_head and sniff_format *)

(** A text file open for reading: its lines, each with its line break, and
    the number of lines the reads so far have taken. *)
Record Handle := mkHandle {
  content : list string;
  position : nat
}.

(** [for idx, line in enumerate(handle)] in [read_head]: [remaining] are
    the lines the handle still has, [lines] the list built so far; the
    result is that list and the number of lines taken from the handle.  The
    line on which the loop breaks has been taken. *)
Fixpoint read_head_loop (num_lines idx : nat) (remaining lines : list string)
    : list string * nat :=
  match remaining with
  | [] => (lines, 0)
  | line :: rest =>
      if (idx =? num_lines)%nat then (lines, 1)
      else
        let '(out, taken) :=
          read_head_loop num_lines (S idx) rest (lines ++ [line]) in
        (out, S taken)
  end.

Definition read_head (handle : Handle) (num_lines : nat) : string * Handle :=
  let '(lines, taken) :=
    read_head_loop num_lines 0 (drop (position handle) (content handle)) [] in
  (Py.join "" lines, mkHandle (content handle) (position handle + taken)).

(** [handle.seek(0)] *)
Definition seek0 (handle : Handle) : Handle := mkHandle (content handle) 0.

Section sniffing.

(** [csv.Sniffer().sniff], which belongs to Python's library: the dialect
    it finds in a sample, or [None] when it raises [csv.Error]. *)
Variable dialect : Type.
Variable Sniffer_sniff : string → option dialect.

Definition sniff_format (handle : Handle) : option dialect * Handle :=
  let '(peek, handle1) := read_head handle 10 in
  let handle2 := seek0 handle1 in
  (Sniffer_sniff peek, handle2).

End sniffing.

(** ** Vocabulary of the driver's properties *)

(** The header [check_samplesheet] writes for the header it read. *)
Definition output_header (fieldnames : list string) : list string :=
  if negb (bool_decide ("RCC_FILE_NAME" ∈ fieldnames))
  then fieldnames ++ ["RCC_FILE_NAME"] else fieldnames.

(** What the driver does with the exception of a refused record:
    [i] is the index of the record. *)
Definition refusal (i : nat) (e : Exception) : Outcome :=
  match e with
  | AssertionError error =>
      SystemExit 1 (error +:+ " On line " +:+ Py.str (i + 2) +:+ ".")
  | _ => Uncaught e None
  end.

(** The record passes [validate_and_transform]. *)
Definition passes (row : gmap string string) : Prop :=
  ∃ d, validated row = Ok d.

(** Lookups in updated dicts and stores. *)
Ltac lookups :=
  repeat first
    [ rewrite fn_lookup_insert | rewrite lookup_insert_eq
    | rewrite lookup_insert_ne by done ].

(** * Properties *)

(** ** Strings *)

Section strings.
Implicit Types (s p suffix : string) (c old new : ascii).

Lemma app_nil_s s : "" +:+ s = s.
Proof. reflexivity. Qed.

Lemma app_cons_s a p s : String a p +:+ s = String a (p +:+ s).
Proof. reflexivity. Qed.

Lemma len_app p s : Py.len (p +:+ s) = Py.len p + Py.len s.
Proof.
  unfold Py.len. induction p as [|a p IH]; [done|].
  rewrite app_cons_s. simpl. by rewrite IH.
Qed.

Lemma app_assoc_s p s suffix : (p +:+ s) +:+ suffix = p +:+ (s +:+ suffix).
Proof.
  induction p as [|a p IH]; [done|]. rewrite !app_cons_s. by rewrite IH.
Qed.

Lemma len_0 s : (Py.len s <=? 0) = true ↔ s = "".
Proof.
  by destruct s.
Qed.

Lemma len_pos s : (Py.len s <=? 0) = false ↔ s ≠ "".
Proof.
  rewrite <- len_0. destruct (Py.len s <=? 0); intuition congruence.
Qed.

Lemma slice_from_app p s : Py.slice_from (Py.len p) (p +:+ s) = s.
Proof.
  induction p as [|a p IH]; [by destruct s|].
  rewrite app_cons_s. simpl. apply IH.
Qed.

Lemma slice_from_split n s : ∃ p, s = p +:+ Py.slice_from n s.
Proof.
  revert s. induction n as [|n IH]; intros s.
  - by exists "".
  - destruct s as [|a s]; simpl; [by exists ""|].
    destruct (IH s) as [p Hp]. exists (String a p).
    rewrite app_cons_s. congruence.
Qed.

Lemma endswith_spec s suffix :
  Py.endswith s suffix = true ↔ ∃ p, s = p +:+ suffix.
Proof.
  unfold Py.endswith. rewrite andb_true_iff, Nat.leb_le, String.eqb_eq.
  split.
  - intros [_ H]. destruct (slice_from_split (Py.len s - Py.len suffix) s)
      as [p Hp]. exists p. congruence.
  - intros [p ->]. rewrite len_app. split; [lia|].
    replace (Py.len p + Py.len suffix - Py.len suffix) with (Py.len p)
      by lia.
    apply slice_from_app.
Qed.

Lemma replace_idem old new s :
  Py.replace old new (Py.replace old new s) = Py.replace old new s.
Proof.
  induction s as [|a s IH]; simpl; [done|]. rewrite IH. f_equal.
  destruct (Ascii.eqb_spec a old) as [->|Ha].
  - by destruct (Ascii.eqb_spec new old).
  - by destruct (Ascii.eqb_spec a old).
Qed.

Lemma replace_len old new s : Py.len (Py.replace old new s) = Py.len s.
Proof. unfold Py.len. induction s; simpl; congruence. Qed.

Lemma replace_nonempty old new s : s ≠ "" → Py.replace old new s ≠ "".
Proof. by destruct s. Qed.

Lemma replace_get old new s i :
  String.get i (Py.replace old new s)
  = (λ a, if Ascii.eqb a old then new else a) <$> String.get i s.
Proof.
  revert i. induction s as [|a s IH]; intros i; simpl; [done|].
  destruct i; simpl; [done | apply IH].
Qed.

Lemma replace_has old new s :
  new ≠ old → Py.has old (Py.replace old new s) = false.
Proof.
  intros Hne. induction s as [|a s IH]; simpl; [done|]. rewrite IH.
  destruct (Ascii.eqb_spec a old) as [->|Ha].
  - by destruct (Ascii.eqb_spec new old).
  - by destruct (Ascii.eqb_spec a old).
Qed.

Lemma replace_fixed old new s :
  Py.has old s = false → Py.replace old new s = s.
Proof.
  induction s as [|a s IH]; simpl; [done|].
  intros [Ha Hs]%orb_false_iff. by rewrite Ha, IH.
Qed.

Lemma replace_mul old new n :
  Py.replace old new (Py.mul old n) = Py.mul new n.
Proof.
  induction n as [|n IH]; simpl; [done|].
  by rewrite Ascii.eqb_refl, IH.
Qed.

Lemma basename_cons a s :
  Py.basename (String a s)
  = if bool_decide (is_Some (Py.rfind "/" s)) || Ascii.eqb a "/"
    then Py.basename s else String a s.
Proof.
  unfold Py.basename. simpl.
  destruct (Py.rfind "/" s) as [k|]; simpl; [done|].
  by destruct (Ascii.eqb a "/").
Qed.

Lemma basename_nonempty p c :
  c ≠ "/"%char → Py.basename (p +:+ String c "") ≠ "".
Proof.
  intros Hc. induction p as [|a p IH].
  - rewrite app_nil_s. unfold Py.basename. simpl.
    by destruct (Ascii.eqb_spec c "/").
  - rewrite app_cons_s, basename_cons. by destruct (_ || _).
Qed.

(** What the extension test of the code accepts: a last character among
    the characters of [VALID_FORMATS]. *)
Lemma format_accepts filename :
  existsb (λ extension, Py.endswith filename extension)
          (Py.iter VALID_FORMATS) = true
  ↔ ∃ p c, filename = p +:+ String c ""
           ∧ (c = "." ∨ c = "R" ∨ c = "C")%char.
Proof.
  unfold VALID_FORMATS. simpl. rewrite !orb_true_iff, !endswith_spec.
  split.
  - intros [[p ->]|[[p ->]|[[p ->]|[[p ->]|?]]]]; [..|done]; exists p; eauto.
  - intros (p & c & -> & [->|[->| ->]]); eauto 10.
Qed.

Lemma format_accepts_RCC filename :
  ends_with_RCC filename = true →
  existsb (λ extension, Py.endswith filename extension)
          (Py.iter VALID_FORMATS) = true.
Proof.
  unfold ends_with_RCC. rewrite endswith_spec. intros [p ->].
  apply format_accepts. exists (p +:+ ".RC"), "C"%char.
  split; [|by auto]. by rewrite app_assoc_s.
Qed.

Lemma format_basename filename :
  existsb (λ extension, Py.endswith filename extension)
          (Py.iter VALID_FORMATS) = true →
  Py.basename filename ≠ "".
Proof.
  intros (p & c & -> & Hc)%format_accepts.
  apply basename_nonempty. by destruct Hc as [->|[->| ->]].
Qed.

End strings.

(** ** Running the methods *)

Lemma cols_ne :
  _sample_col ≠ _rcc_file ∧ _sample_col ≠ _rcc_file_name
  ∧ _rcc_file ≠ _rcc_file_name.
Proof. by repeat split. Qed.


Lemma _validate_sample_run a st :
  _validate_sample a st =
    match heap st a !! _sample_col with
    | None => (Raise (KeyError _sample_col), st)
    | Some s =>
        if (Py.len s <=? 0)%nat
        then (Raise (AssertionError sample_required), st)
        else (Ok tt,
              mkState (<[a := <[_sample_col := Py.replace " " "_" s]> (heap st a)]>
                         (heap st))
                      (_seen st) (modified st))
    end.
Proof.
  unfold _validate_sample, bind, getitem.
  destruct (heap st a !! _sample_col) as [s|] eqn:Hs; [|done].
  destruct (Py.len s <=? 0); [done|]. by rewrite Hs.
Qed.

Lemma _validate_rcc_file_run a st :
  _validate_rcc_file a st =
    match heap st a !! _rcc_file with
    | None => (Raise (KeyError _rcc_file), st)
    | Some f =>
        if (Py.len f <=? 0)%nat
        then (Raise (AssertionError rcc_required), st)
        else if negb (existsb (λ extension, Py.endswith f extension)
                              (Py.iter VALID_FORMATS))
        then (Raise (AssertionError (unrecognized_extension f)), st)
        else
          let derived :=
            mkState (<[a := <[_rcc_file_name := Py.basename f]> (heap st a)]>
                       (heap st))
                    (_seen st) (modified st) in
          match heap st a !! _rcc_file_name with
          | Some n => if (Py.len n <=? 0)%nat then (Ok tt, derived) else (Ok tt, st)
          | None => (Ok tt, derived)
          end
    end.
Proof.
  unfold _validate_rcc_file, _validate_rcc_format, bind, getitem, contains.
  destruct (heap st a !! _rcc_file) as [f|] eqn:Hf; [|done].
  destruct (Py.len f <=? 0); [done|]. rewrite Hf.
  destruct (negb _); [done|]. simpl.
  destruct (heap st a !! _rcc_file_name) as [n|] eqn:Hn; simpl.
  - rewrite Hn. destruct (Py.len n <=? 0); [|done]. by rewrite Hf.
  - by rewrite Hf.
Qed.

Lemma validate_and_transform_run a st :
  ∃ h', h' a = (row_effect (heap st a)).1
        ∧ (∀ b, b ≠ a → h' b = heap st b)
        ∧ validate_and_transform a st =
            match (row_effect (heap st a)).2 with
            | Ok t => (Ok tt, mkState h' ({[t]} ∪ _seen st) (modified st ++ [a]))
            | Raise e => (Raise e, mkState h' (_seen st) (modified st))
            end.
Proof.
  destruct cols_ne as (Hsf & Hsn & Hfn).
  destruct st as [h seen rows].
  unfold validate_and_transform, row_effect, bind.
  rewrite _validate_sample_run. simpl.
  destruct (h a !! _sample_col) as [s|] eqn:Hs; [|by exists h].
  destruct (Py.len s <=? 0); [by exists h|].
  rewrite _validate_rcc_file_run. simpl.
  rewrite !fn_lookup_insert, !lookup_insert_ne by done.
  set (row1 := <[_sample_col:=_]> (h a)).
  assert (∀ row b, b ≠ a → <[a:=row]> (<[a:=row1]> h) b = h b) as Hframe2
    by (intros; by rewrite !fn_lookup_insert_ne).
  assert (∀ b, b ≠ a → <[a:=row1]> h b = h b) as Hframe
    by (intros; by apply fn_lookup_insert_ne).
  assert (<[a:=row1]> h a = row1) as Hrow1 by apply fn_lookup_insert.
  destruct (h a !! _rcc_file) as [f|] eqn:Hf; [|by exists (<[a:=row1]> h)].
  destruct (Py.len f <=? 0); [by exists (<[a:=row1]> h)|].
  destruct (negb _); [by exists (<[a:=row1]> h)|].
  assert (row1 !! _sample_col = Some (Py.replace " " "_" s)) as Hs1
    by apply lookup_insert_eq.
  assert (row1 !! _rcc_file = Some f) as Hf1
    by (unfold row1; by rewrite lookup_insert_ne).
  assert (row1 !! _rcc_file_name = h a !! _rcc_file_name) as Hn1
    by (unfold row1; by rewrite lookup_insert_ne).
  clearbody row1.
  destruct (h a !! _rcc_file_name) as [n|] eqn:Hn;
    [destruct (Py.len n <=? 0)|]; unfold getitem, seen_add, modified_append;
    repeat first
      [ rewrite fn_lookup_insert | rewrite lookup_insert_eq
      | rewrite lookup_insert_ne by done
      | rewrite Hs1 | rewrite Hf1 | rewrite Hn1 | progress simpl ];
    eexists; (split; [|split; [|reflexivity]]);
    rewrite ?fn_lookup_insert; auto.
Qed.

(** ** The effect on the offered row *)


Lemma row_effect_ok row t :
  (row_effect row).2 = Ok t →
  ∃ s f n,
    row !! _sample_col = Some s ∧ s ≠ ""
    ∧ row !! _rcc_file = Some f ∧ f ≠ "" ∧ format_ok f = true
    ∧ n = match row !! _rcc_file_name with
          | Some n0 => if (Py.len n0 <=? 0)%nat then Py.basename f else n0
          | None => Py.basename f
          end
    ∧ n ≠ ""
    ∧ t = (Py.replace " " "_" s, f, n)
    ∧ (row_effect row).1
      = <[_rcc_file_name := n]> (<[_sample_col := Py.replace " " "_" s]> row).
Proof.
  destruct cols_ne as (Hsf & Hsn & Hfn).
  unfold row_effect, format_ok.
  destruct (row !! _sample_col) as [s|] eqn:Hs; [|done].
  destruct (Py.len s <=? 0) eqn:Hls; [done|].
  destruct (row !! _rcc_file) as [f|] eqn:Hf; [|done].
  destruct (Py.len f <=? 0) eqn:Hlf; [done|].
  destruct (existsb _ _) eqn:Hfmt; [|done]. simpl.
  apply len_pos in Hls, Hlf.
  pose proof (format_basename f Hfmt) as Hbase.
  destruct (row !! _rcc_file_name) as [n|] eqn:Hn;
    [destruct (Py.len n <=? 0) eqn:Hln|]; simpl; intros [= <-];
    eexists s, f, _; repeat split; try done.
  - by apply len_pos.
  - symmetry. apply insert_id. by rewrite lookup_insert_ne.
Qed.

Lemma row_effect_raise row e :
  (row_effect row).2 = Raise e →
  (row !! _sample_col = None ∧ e = KeyError _sample_col
   ∧ (row_effect row).1 = row)
  ∨ (row !! _sample_col = Some "" ∧ e = AssertionError sample_required
     ∧ (row_effect row).1 = row)
  ∨ ∃ s, row !! _sample_col = Some s ∧ s ≠ ""
         ∧ (row_effect row).1 = <[_sample_col := Py.replace " " "_" s]> row
         ∧ ((row !! _rcc_file = None ∧ e = KeyError _rcc_file)
            ∨ (row !! _rcc_file = Some "" ∧ e = AssertionError rcc_required)
            ∨ ∃ f, row !! _rcc_file = Some f ∧ f ≠ "" ∧ format_ok f = false
                   ∧ e = AssertionError (unrecognized_extension f)).
Proof.
  unfold row_effect, format_ok.
  destruct (row !! _sample_col) as [s|] eqn:Hs; [|intros [= <-]; auto].
  destruct (Py.len s <=? 0) eqn:Hls.
  { apply len_0 in Hls as ->. intros [= <-]; auto. }
  apply len_pos in Hls. intros He. right; right. exists s.
  split; [done|]. split; [done|]. revert He.
  destruct (row !! _rcc_file) as [f|] eqn:Hf; [|intros [= <-]; auto].
  destruct (Py.len f <=? 0) eqn:Hlf.
  { apply len_0 in Hlf as ->. intros [= <-]; auto. }
  apply len_pos in Hlf.
  destruct (existsb _ _) eqn:Hfmt; simpl.
  - destruct (row !! _rcc_file_name) as [n|];
      [destruct (Py.len n <=? 0)|]; done.
  - intros [= <-]. split; [done|]. right; right. by exists f.
Qed.

Lemma row_effect_accepts row s f :
  row !! _sample_col = Some s → s ≠ "" →
  row !! _rcc_file = Some f → f ≠ "" → format_ok f = true →
  ∃ t, (row_effect row).2 = Ok t.
Proof.
  intros Hs Hls%len_pos Hf Hlf%len_pos Hfmt.
  unfold row_effect, format_ok in *. rewrite Hs, Hls, Hf, Hlf, Hfmt. simpl.
  destruct (row !! _rcc_file_name) as [n|];
    [destruct (Py.len n <=? 0)|]; eauto.
Qed.

Lemma row_effect_key row t :
  (row_effect row).2 = Ok t → key_of (row_effect row).1 = t.
Proof.
  destruct cols_ne as (Hsf & Hsn & Hfn).
  intros (s & f & n & Hs & _ & Hf & _ & _ & _ & _ & -> & ->)%row_effect_ok.
  unfold key_of. lookups. by rewrite Hf.
Qed.

Lemma row_effect_accepted_form row t :
  (row_effect row).2 = Ok t → accepted_form (row_effect row).1.
Proof.
  destruct cols_ne as (Hsf & Hsn & Hfn).
  intros (s & f & n & Hs & Hls & Hf & Hlf & Hfmt & _ & Hn & _ & ->)%row_effect_ok.
  exists (Py.replace " " "_" s), f, n. lookups.
  repeat split; try done.
  - by apply replace_nonempty.
  - by apply replace_has.
Qed.

Lemma accepted_form_effect row :
  accepted_form row → row_effect row = (row, Ok (key_of row)).
Proof.
  intros (s & f & n & Hs & Hls%len_pos & Hsp & Hf & Hlf%len_pos & Hfmt
          & Hn & Hln%len_pos).
  unfold row_effect, key_of, format_ok in *.
  rewrite Hs, Hls, Hf, Hlf, Hfmt, Hn, Hln. simpl.
  rewrite (replace_fixed _ _ _ Hsp). by rewrite insert_id.
Qed.

Lemma row_effect_other row k :
  k ≠ _sample_col → k ≠ _rcc_file_name → (row_effect row).1 !! k = row !! k.
Proof.
  intros Hk1 Hk2. destruct ((row_effect row).2) as [t|e] eqn:Hr.
  - apply row_effect_ok in Hr as (s & f & n & _ & _ & _ & _ & _ & _ & _ & _ & ->).
    by rewrite !lookup_insert_ne.
  - apply row_effect_raise in Hr
      as [(_ & _ & ->)|[(_ & _ & ->)|(s & _ & _ & -> & _)]]; try done.
    by rewrite lookup_insert_ne.
Qed.

Lemma row_effect_named row :
  named row → named (row_effect row).1.
Proof.
  destruct cols_ne as (Hsf & Hsn & Hfn).
  intros (n & Hn & Hln). exists n. split; [|done].
  destruct ((row_effect row).2) as [t|e] eqn:Hr.
  - apply row_effect_ok in Hr as (s & f & n' & _ & _ & _ & _ & _ & Hn' & _ & _ & ->).
    rewrite Hn in Hn'. apply len_pos in Hln. rewrite Hln in Hn'. subst n'.
    apply lookup_insert_eq.
  - apply row_effect_raise in Hr
      as [(_ & _ & ->)|[(_ & _ & ->)|(s & _ & _ & -> & _)]]; try done.
    by rewrite lookup_insert_ne.
Qed.

(** ** The effect on the checker *)

Lemma validate_and_transform_inv a st r st' :
  validate_and_transform a st = (r, st') →
  heap st' a = (row_effect (heap st a)).1
  ∧ (∀ b, b ≠ a → heap st' b = heap st b)
  ∧ match (row_effect (heap st a)).2 with
    | Ok t => r = Ok tt ∧ _seen st' = {[t]} ∪ _seen st
              ∧ modified st' = modified st ++ [a]
    | Raise e => r = Raise e ∧ _seen st' = _seen st
                 ∧ modified st' = modified st
    end.
Proof.
  destruct (validate_and_transform_run a st) as (h' & Ha & Hframe & ->).
  destruct ((row_effect (heap st a)).2); intros [= <- <-]; by simpl.
Qed.

Lemma accepted_row_untouched a b st r st' :
  validate_and_transform a st = (r, st') →
  accepted_form (heap st b) → heap st' b = heap st b.
Proof.
  intros (Ha & Hframe & _)%validate_and_transform_inv Hb.
  destruct (decide (b = a)) as [->|Hne]; [|by apply Hframe].
  by rewrite Ha, (accepted_form_effect _ Hb).
Qed.

Lemma accepted_row_accepted a st r st' :
  validate_and_transform a st = (r, st') →
  accepted_form (heap st a) → r = Ok tt.
Proof.
  intros (_ & _ & Hr)%validate_and_transform_inv Ha.
  rewrite (accepted_form_effect _ Ha) in Hr. simpl in Hr. tauto.
Qed.

Lemma reaches_consistent ts st : reaches ts st → consistent ts st.
Proof.
  induction 1 as [h|ts st a st' _ (Hts & Hseen & Hform) Hrun
                  |ts st a e st' _ (Hts & Hseen & Hform) Hrun
                  |ts st h _ (Hts & Hseen & Hform) Hh].
  - repeat split; simpl; [done..|]. by intros a Ha%not_elem_of_nil.
  - pose proof Hrun as (Ha & Hframe & Hr)%validate_and_transform_inv.
    destruct ((row_effect (heap st a)).2) as [t|] eqn:Heff;
      destruct Hr as (? & Hseen' & Hmod'); [|done].
    assert (key_of (heap st' a) = t) as Hkey
      by (rewrite Ha; by apply row_effect_key).
    assert (∀ b, b ∈ modified st → heap st' b = heap st b) as Hsame
      by (intros b Hb; eapply accepted_row_untouched; eauto).
    repeat split.
    + rewrite Hmod', fmap_app. simpl. f_equal. rewrite Hts.
      apply list_fmap_ext. intros i b Hb. rewrite Hsame; [done|].
      by eapply list_elem_of_lookup_2.
    + rewrite Hseen', Hseen, Hkey, list_to_set_app_L, list_to_set_cons,
        list_to_set_nil. clear. set_solver.
    + intros b. rewrite Hmod'. intros [Hb| ->%list_elem_of_singleton]%elem_of_app.
      * rewrite Hsame by done. by apply Hform.
      * rewrite Ha. by eapply row_effect_accepted_form.
  - pose proof Hrun as (Ha & Hframe & Hr)%validate_and_transform_inv.
    destruct ((row_effect (heap st a)).2) as [t|] eqn:Heff;
      destruct Hr as (? & Hseen' & Hmod'); [done|].
    assert (∀ b, b ∈ modified st → heap st' b = heap st b) as Hsame
      by (intros b Hb; eapply accepted_row_untouched; eauto).
    repeat split.
    + rewrite Hmod', Hts. apply list_fmap_ext. intros i b Hb.
      rewrite Hsame; [done|]. by eapply list_elem_of_lookup_2.
    + by rewrite Hseen'.
    + intros b. rewrite Hmod'. intros Hb. rewrite Hsame by done. by apply Hform.
  - repeat split; simpl.
    + rewrite Hts. apply list_fmap_ext. intros i b Hb.
      rewrite Hh; [done|]. by eapply list_elem_of_lookup_2.
    + done.
    + intros b Hb. rewrite Hh by done. by apply Hform.
Qed.

(** ** The size of the seen set *)

Section seen_size.
Implicit Types (ts : list (string * string * string)).

Lemma size_seen_le ts :
  size (list_to_set ts : gset (string * string * string)) ≤ length ts.
Proof.
  induction ts as [|t ts IH].
  { rewrite list_to_set_nil, size_empty. simpl. lia. }
  rewrite list_to_set_cons, size_union_alt, size_singleton. simpl.
  assert (size (list_to_set ts ∖ {[t]} : gset _) ≤ size (list_to_set ts : gset _))
    by (apply subseteq_size; set_solver).
  lia.
Qed.

Lemma size_seen_NoDup ts :
  size (list_to_set ts : gset (string * string * string)) = length ts
  ↔ NoDup ts.
Proof.
  split; [|apply size_list_to_set].
  induction ts as [|t ts IH]; [constructor|].
  rewrite list_to_set_cons. simpl.
  intros Hsize. pose proof (size_seen_le ts) as Hle.
  destruct (decide (t ∈ ts)) as [Hin|Hin].
  - replace ({[t]} ∪ list_to_set ts : gset _) with (list_to_set ts : gset _)
      in Hsize by set_solver. lia.
  - rewrite size_union, size_singleton in Hsize by set_solver.
    constructor; [done|]. apply IH. lia.
Qed.

Lemma duplicate_iff ts :
  ¬ NoDup ts ↔ ∃ i j t, i < j ∧ ts !! i = Some t ∧ ts !! j = Some t.
Proof.
  split.
  - induction ts as [|t ts IH]; intros Hdup.
    { destruct Hdup. constructor. }
    destruct (decide (t ∈ ts)) as [Hin|Hin].
    + apply list_elem_of_lookup in Hin as [j Hj].
      exists 0, (S j), t. split; [lia|done].
    + destruct IH as (i & j & t' & Hlt & Hi & Hj).
      { intros Hnd. apply Hdup. by constructor. }
      exists (S i), (S j), t'. split; [lia|done].
  - intros (i & j & t & Hlt & Hi & Hj) Hnd.
    rewrite NoDup_alt in Hnd. specialize (Hnd i j t Hi Hj). lia.
Qed.

End seen_size.

(** ** The rename loop *)

Lemma occurrences_cons id x ids :
  occurrences id (x :: ids)
  = (if decide (x = id) then 1 else 0) + occurrences id ids.
Proof.
  unfold occurrences. rewrite filter_cons. by destruct (decide (x = id)).
Qed.

Lemma renamed_eq id n m (row : gmap string string) :
  n = m →
  <[_sample_col := id +:+ "_T" +:+ Py.str n]> row
  = <[_sample_col := id +:+ "_T" +:+ Py.str m]> row.
Proof. by intros ->. Qed.

Lemma rename_loop_run rows : ∀ seen st,
  NoDup rows →
  (∀ a, a ∈ rows → is_Some (heap st a !! _sample_col)) →
  ∃ h',
    rename_loop seen rows st = (Ok tt, mkState h' (_seen st) (modified st))
    ∧ (∀ b, b ∉ rows → h' b = heap st b)
    ∧ ∀ i a, rows !! i = Some a →
        h' a = <[_sample_col :=
                   sample_of st a +:+ "_T"
                   +:+ Py.str (default 0 (seen !! sample_of st a)
                               + S (occurrences (sample_of st a)
                                      (take i (sample_of st <$> rows))))]>
                 (heap st a).
Proof.
  induction rows as [|a rest IH]; intros seen st Hnd Hkeys.
  - exists (heap st). destruct st. by repeat split.
  - apply NoDup_cons in Hnd as [Ha Hnd].
    destruct (Hkeys a) as [id Hid]; [by left|].
    simpl. unfold bind, getitem, setitem. rewrite Hid.
    set (seen' := <[id := S (default 0 (seen !! id))]> seen).
    set (st1 := mkState _ _ _).
    assert (∀ b, b ≠ a → heap st1 b = heap st b) as Hframe
      by (intros b Hb; apply fn_lookup_insert_ne; congruence).
    assert (∀ b, b ∈ rest → heap st1 b = heap st b) as Hrest
      by (intros b Hb; apply Hframe; congruence).
    destruct (IH seen' st1 Hnd) as (h' & Hrun & Hout & Hin).
    { intros b Hb. rewrite Hrest by done. apply Hkeys. by right. }
    exists h'. split; [exact Hrun|]. split.
    + intros b Hb. apply not_elem_of_cons in Hb as [Hne Hb].
      rewrite Hout by done. by apply Hframe.
    + assert (sample_of st a = id) as Hsa by (unfold sample_of; by rewrite Hid).
      intros [|i] b Hb; simpl in Hb.
      * injection Hb as <-. rewrite Hout by done.
        unfold st1. simpl. rewrite fn_lookup_insert, Hsa.
        unfold seen'. rewrite lookup_insert_eq. simpl.
        apply renamed_eq. unfold occurrences. simpl. lia.
      * assert (b ∈ rest) as Hbin by (by eapply list_elem_of_lookup_2).
        rewrite (Hin i b Hb).
        assert (sample_of st1 b = sample_of st b) as ->
          by (unfold sample_of; by rewrite Hrest).
        assert (sample_of st1 <$> rest = sample_of st <$> rest) as ->.
        { apply list_fmap_ext. intros j c Hc. unfold sample_of.
          rewrite Hrest; [done|]. by eapply list_elem_of_lookup_2. }
        rewrite Hrest by done.
        change (list_fmap _ _ (sample_of st) rest) with (sample_of st <$> rest).
        rewrite firstn_cons, Hsa.
        rewrite occurrences_cons. unfold seen'.
        apply renamed_eq. destruct (decide (id = sample_of st b)) as [<-|Hne].
        -- rewrite lookup_insert_eq. simpl. lia.
        -- rewrite lookup_insert_ne by done. lia.
Qed.

Lemma validate_unique_samples_raise st :
  size (_seen st) ≠ length (modified st) →
  validate_unique_samples st = (Raise (AssertionError not_unique), st).
Proof.
  intros Hne. unfold validate_unique_samples.
  by apply Nat.eqb_neq in Hne as ->.
Qed.

Lemma validate_unique_samples_loop st :
  size (_seen st) = length (modified st) →
  validate_unique_samples st = rename_loop ∅ (modified st) st.
Proof.
  intros Heq. unfold validate_unique_samples.
  by apply Nat.eqb_eq in Heq as ->.
Qed.

(** The loop changes nothing but the sample column of the rows it visits,
    whether it ends or breaks off. *)
Lemma rename_loop_keeps rows : ∀ seen st r st',
  rename_loop seen rows st = (r, st') →
  _seen st' = _seen st ∧ modified st' = modified st
  ∧ ∀ b k, k ≠ _sample_col → heap st' b !! k = heap st b !! k.
Proof.
  induction rows as [|a rest IH]; intros seen st r st'; simpl.
  - by intros [= <- <-].
  - unfold bind, getitem, setitem.
    destruct (heap st a !! _sample_col) as [id|]; [|by intros [= <- <-]].
    intros (Hseen & Hmod & Hheap)%IH. simpl in *.
    split; [done|]. split; [done|]. intros b k Hk.
    rewrite Hheap by done. destruct (decide (a = b)) as [->|Hne].
    + by rewrite fn_lookup_insert, lookup_insert_ne.
    + by rewrite fn_lookup_insert_ne.
Qed.

(** ** Running the methods on given inputs *)

Lemma run_eq {A} (m : M A) st r : (m st).1 = r → m st = (r, (m st).2).
Proof. destruct (m st). simpl. congruence. Qed.

Lemma offered_snoc rows a :
  offered (rows ++ [a]) = (validate_and_transform a (offered rows)).2.
Proof. unfold offered. by rewrite foldl_snoc. Qed.

Lemma offered_run rows a r :
  (validate_and_transform a (offered rows)).1 = r →
  validate_and_transform a (offered rows) = (r, offered (rows ++ [a])).
Proof. rewrite offered_snoc. apply run_eq. Qed.

Lemma reaches_offered_accept ts rows a k :
  reaches ts (offered rows) →
  (validate_and_transform a (offered rows)).1 = Ok tt →
  key_of (heap (offered (rows ++ [a])) a) = k →
  reaches (ts ++ [k]) (offered (rows ++ [a])).
Proof.
  intros Hreach Hrun%offered_run <-. by eapply reaches_accept.
Qed.

Lemma reaches_fresh : reaches [] (offered []).
Proof. apply reaches_init. Qed.

(** * The claims *)

Lemma row_effect_sample row s :
  row !! _sample_col = Some s → s ≠ "" →
  (row_effect row).1 !! _sample_col = Some (Py.replace " " "_" s).
Proof.
  destruct cols_ne as (Hsf & Hsn & Hfn).
  intros Hs Hne. destruct ((row_effect row).2) as [t|e] eqn:Hr.
  - apply row_effect_ok in Hr
      as (s' & f & n & Hs' & _ & _ & _ & _ & _ & _ & _ & ->).
    lookups. congruence.
  - apply row_effect_raise in Hr
      as [(Hs' & _)|[(Hs' & _)|(s' & Hs' & _ & -> & _)]]; [congruence..|].
    lookups. congruence.
Qed.

(** C6: a row whose sample identifier is the empty string is refused with
    "Sample input is required." and nothing changes; otherwise the call
    leaves [replace(" ", "_")] of the identifier in the row, which is the
    identifier with every space turned into an underscore, holds no space,
    and is a fixed point of the substitution; an accepted row is the one
    appended to [modified]. *)
Theorem sample_identifier_sanitized a st s :
  heap st a !! _sample_col = Some s →
  (s = "" →
   validate_and_transform a st = (Raise (AssertionError sample_required), st))
  ∧ (s ≠ "" →
     ∃ r st', validate_and_transform a st = (r, st')
       ∧ r ≠ Raise (AssertionError sample_required)
       ∧ heap st' a !! _sample_col = Some (Py.replace " " "_" s)
       ∧ (r = Ok tt → modified st' = modified st ++ [a]))
  ∧ (∀ i, String.get i (Py.replace " " "_" s)
          = (λ c, if Ascii.eqb c " " then "_"%char else c) <$> String.get i s)
  ∧ Py.has " " (Py.replace " " "_" s) = false
  ∧ Py.replace " " "_" (Py.replace " " "_" s) = Py.replace " " "_" s.
Proof.
  intros Hs. repeat split.
  - intros ->. unfold validate_and_transform, bind.
    by rewrite _validate_sample_run, Hs.
  - intros Hne.
    destruct (validate_and_transform a st) as [r st'] eqn:Hrun.
    exists r, st'. split; [done|].
    apply validate_and_transform_inv in Hrun as (Ha & _ & Hr).
    split; [|split].
    + destruct ((row_effect (heap st a)).2) as [t|e] eqn:Heff;
        destruct Hr as (-> & _); [done|].
      apply row_effect_raise in Heff
        as [(Hs' & _)|[(Hs' & _)|(s' & _ & _ & _ & He)]]; [congruence..|].
      destruct He as [(_ & ->)|[(_ & ->)|(f & _ & _ & _ & ->)]]; done.
    + rewrite Ha. by apply row_effect_sample.
    + intros ->. destruct ((row_effect (heap st a)).2); destruct Hr as (? & _ & ?);
        done.
  - intros i. apply replace_get.
  - by apply replace_has.
  - apply replace_idem.
Qed.

Lemma sample_identifier_sanitized_witness :
  heap fresh 2 !! _sample_col = Some "S 2"
  ∧ ∃ r st', validate_and_transform 2 fresh = (r, st')
      ∧ r ≠ Raise (AssertionError sample_required)
      ∧ heap st' 2 !! _sample_col = Some "S_2"
      ∧ (r = Ok tt → modified st' = modified fresh ++ [2]).
Proof.
  split; [reflexivity|].
  apply (sample_identifier_sanitized 2 fresh "S 2"); [reflexivity|discriminate].
Defined.

(** C10: a sample identifier made of spaces only is not taken for an empty
    one; with a file reference that ends in [.RCC] the row is accepted and
    its identifier becomes as many underscores. *)
Theorem blank_sample_accepted a st n f :
  heap st a !! _sample_col = Some (Py.mul " " (S n)) →
  heap st a !! _rcc_file = Some f →
  ends_with_RCC f = true →
  ∃ st', validate_and_transform a st = (Ok tt, st')
    ∧ heap st' a !! _sample_col = Some (Py.mul "_" (S n))
    ∧ modified st' = modified st ++ [a].
Proof.
  intros Hs Hf Hrcc.
  assert (f ≠ "") as Hne.
  { apply endswith_spec in Hrcc as [p ->]. by destruct p. }
  destruct (row_effect_accepts (heap st a) _ f Hs) as [t Ht];
    [done|done|done|by apply format_accepts_RCC|].
  destruct (validate_and_transform a st) as [r st'] eqn:Hrun.
  apply validate_and_transform_inv in Hrun as (Ha & _ & Hr).
  rewrite Ht in Hr. destruct Hr as (-> & _ & Hmod).
  exists st'. split; [done|]. split; [|done].
  rewrite Ha, (row_effect_sample _ _ Hs) by done. by rewrite replace_mul.
Qed.

Lemma blank_sample_accepted_witness :
  heap fresh 6 !! _sample_col = Some (Py.mul " " 3)
  ∧ heap fresh 6 !! _rcc_file = Some "f.RCC"
  ∧ ends_with_RCC "f.RCC" = true
  ∧ ∃ st', validate_and_transform 6 fresh = (Ok tt, st')
      ∧ heap st' 6 !! _sample_col = Some "___"
      ∧ modified st' = modified fresh ++ [6].
Proof.
  repeat split; [reflexivity..|].
  apply (blank_sample_accepted 6 fresh 2 "f.RCC"); reflexivity.
Defined.

Lemma rfind_none c s : Py.has c s = false → Py.rfind c s = None.
Proof.
  induction s as [|a s IH]; simpl; [done|].
  intros [Ha Hs]%orb_false_iff. by rewrite IH, Ha.
Qed.

Lemma rfind_slash dir name : is_Some (Py.rfind "/" (dir +:+ "/" +:+ name)).
Proof.
  induction dir as [|a dir IH].
  - rewrite app_nil_s, app_cons_s. simpl.
    destruct (Py.rfind "/" ("" +:+ name)); eauto.
  - rewrite app_cons_s. simpl. by destruct IH as [k ->].
Qed.

(** [basename] gives the last component of a path. *)
Lemma basename_last dir name :
  Py.has "/" name = false →
  Py.basename name = name ∧ Py.basename (dir +:+ "/" +:+ name) = name.
Proof.
  intros Hname.
  assert (Py.basename name = name) as Hbase
    by (unfold Py.basename; by rewrite rfind_none).
  split; [done|]. induction dir as [|a dir IH].
  - rewrite app_nil_s, app_cons_s, basename_cons, app_nil_s.
    by rewrite orb_true_r.
  - rewrite app_cons_s, basename_cons.
    by rewrite bool_decide_eq_true_2 by apply rfind_slash.
Qed.

(** C7: in an accepted row the file-name column holds the basename of the
    file reference when the column was absent or empty in the offered row,
    and the offered value when it was present and not empty; the basename
    is the last component of the path. *)
Theorem file_name_derived_or_kept a st st' :
  validate_and_transform a st = (Ok tt, st') →
  ∃ f,
    heap st a !! _rcc_file = Some f ∧ heap st' a !! _rcc_file = Some f
    ∧ (heap st a !! _rcc_file_name = None
       ∨ heap st a !! _rcc_file_name = Some "" →
       heap st' a !! _rcc_file_name = Some (Py.basename f))
    ∧ (∀ n, heap st a !! _rcc_file_name = Some n → n ≠ "" →
            heap st' a !! _rcc_file_name = Some n)
    ∧ (∀ dir name, Py.has "/" name = false →
         (f = name ∨ f = dir +:+ "/" +:+ name) → Py.basename f = name).
Proof.
  destruct cols_ne as (Hsf & Hsn & Hfn).
  intros (Ha & _ & Hr)%validate_and_transform_inv.
  destruct ((row_effect (heap st a)).2) as [t|e] eqn:Heff;
    [|by destruct Hr].
  apply row_effect_ok in Heff
    as (s & f & n & _ & _ & Hf & _ & _ & Hn & _ & _ & Heq).
  exists f. rewrite Ha, Heq. lookups. repeat split; [done..| | |].
  - intros [Hnone|Hempty]; [by rewrite Hnone in Hn; subst n|].
    by rewrite Hempty in Hn; subst n.
  - intros n0 Hn0 Hne%len_pos. rewrite Hn0, Hne in Hn. by subst n.
  - intros dir name Hname [->| ->]; by apply (basename_last dir name).
Qed.

Lemma file_name_derived_or_kept_witness :
  validate_and_transform 2 (offered []) = (Ok tt, offered [2])
  ∧ heap (offered []) 2 !! _rcc_file_name = None
  ∧ heap (offered [2]) 2 !! _rcc_file_name = Some "c.RCC".
Proof.
  assert (validate_and_transform 2 (offered []) = (Ok tt, offered [2]))
    as Hrun by (apply (offered_run []); vm_compute; reflexivity).
  assert (heap (offered []) 2 !! _rcc_file = Some "runs/c.RCC") as Hfile
    by (vm_compute; reflexivity).
  assert (heap (offered []) 2 !! _rcc_file_name = None) as Habsent
    by (vm_compute; reflexivity).
  split; [exact Hrun|]. split; [exact Habsent|].
  destruct (file_name_derived_or_kept 2 (offered []) (offered [2]) Hrun)
    as (f & Hf & _ & Hnone & _ & Hlast).
  rewrite Hnone by (left; exact Habsent). f_equal.
  apply (Hlast "runs" "c.RCC"); [reflexivity|].
  right. rewrite Hfile in Hf. injection Hf as <-. reflexivity.
Defined.

(** C8: [_seen] and [modified] change only in a call that passes every
    check.  A call that raises leaves both as they were, leaves every
    other dict alone and, in a checker that only ever saw such calls,
    leaves the dicts of the accepted rows alone; a call that returns has
    found a non-empty sample identifier and a non-empty file reference
    with an accepted extension, has recorded the key of the row and has
    appended the row.  An empty sample identifier, an empty file reference
    and a refused extension each make the call raise. *)
Theorem validate_and_transform_atomic a st r st' :
  validate_and_transform a st = (r, st') →
  match r with
  | Raise e =>
      _seen st' = _seen st ∧ modified st' = modified st
      ∧ (∀ b, b ≠ a → heap st' b = heap st b)
      ∧ (∀ ts, reaches ts st →
               ∀ b, b ∈ modified st → heap st' b = heap st b)
  | Ok _ =>
      (∃ s f, heap st a !! _sample_col = Some s ∧ s ≠ ""
              ∧ heap st a !! _rcc_file = Some f ∧ f ≠ ""
              ∧ format_ok f = true)
      ∧ _seen st' = {[key_of (heap st' a)]} ∪ _seen st
      ∧ modified st' = modified st ++ [a]
  end
  ∧ (heap st a !! _sample_col = Some "" →
     r = Raise (AssertionError sample_required))
  ∧ (∀ s, heap st a !! _sample_col = Some s → s ≠ "" →
          heap st a !! _rcc_file = Some "" →
          r = Raise (AssertionError rcc_required))
  ∧ (∀ s f, heap st a !! _sample_col = Some s → s ≠ "" →
            heap st a !! _rcc_file = Some f → f ≠ "" →
            format_ok f = false →
            r = Raise (AssertionError (unrecognized_extension f))).
Proof.
  intros Hrun.
  pose proof Hrun as (Ha & Hframe & Hr)%validate_and_transform_inv.
  destruct ((row_effect (heap st a)).2) as [t|e] eqn:Heff.
  - destruct Hr as (-> & Hseen & Hmod).
    pose proof (row_effect_key _ _ Heff) as Hkey.
    apply row_effect_ok in Heff
      as (s & f & n & Hs & Hls & Hf & Hlf & Hfmt & _).
    repeat split.
    + by exists s, f.
    + by rewrite Ha, Hkey.
    + done.
    + intros Hs'. congruence.
    + intros s' Hs' _ Hf'. congruence.
    + intros s' f' _ _ Hf' _ Hfmt'. congruence.
  - destruct Hr as (-> & Hseen & Hmod).
    repeat split; try done.
    + intros ts Hreach b Hb.
      apply reaches_consistent in Hreach as (_ & _ & Hform).
      eapply accepted_row_untouched; eauto.
    + intros Hs. apply row_effect_raise in Heff
        as [(Hs' & _)|[(_ & -> & _)|(s' & Hs' & Hne & _)]]; congruence.
    + intros s Hs Hne Hf. apply row_effect_raise in Heff
        as [(Hs' & _)|[(Hs' & _)|(s' & _ & _ & _ & He)]]; [congruence..|].
      destruct He as [(Hf' & _)|[(_ & ->)|(f & Hf' & Hnf & _)]];
        congruence.
    + intros s f Hs Hne Hf Hnf Hfmt. apply row_effect_raise in Heff
        as [(Hs' & _)|[(Hs' & _)|(s' & _ & _ & _ & He)]]; [congruence..|].
      destruct He as [(Hf' & _)|[(Hf' & _)|(f' & Hf' & _ & _ & ->)]];
        congruence.
Qed.

Lemma validate_and_transform_atomic_witness :
  validate_and_transform 4 (offered [0; 1])
  = (Raise (AssertionError (unrecognized_extension "data.txt")),
     offered [0; 1; 4])
  ∧ _seen (offered [0; 1; 4]) = _seen (offered [0; 1])
  ∧ modified (offered [0; 1; 4]) = modified (offered [0; 1]).
Proof.
  assert (validate_and_transform 4 (offered [0; 1])
          = (Raise (AssertionError (unrecognized_extension "data.txt")),
             offered [0; 1; 4])) as Hrun
    by (apply (offered_run [0; 1]); vm_compute; reflexivity).
  split; [exact Hrun|].
  destruct (validate_and_transform_atomic _ _ _ _ Hrun)
    as ((Hseen & Hmod & _) & _).
  split; [exact Hseen|exact Hmod].
Defined.

Lemma named_other (row : gmap string string) v :
  named row → named (<[_sample_col := v]> row).
Proof.
  intros (n & Hn & Hne). exists n. split; [|done].
  rewrite lookup_insert_ne; [done|]. by destruct cols_ne as (_ & ? & _).
Qed.

Lemma named_keeps (row row' : gmap string string) :
  row' !! _rcc_file_name = row !! _rcc_file_name → named row → named row'.
Proof. intros Heq (n & Hn & Hne). exists n. by rewrite Heq. Qed.

Lemma step_named st st' :
  (∀ a, a ∈ modified st → named (heap st a)) →
  step st st' →
  ∀ a, a ∈ modified st' → named (heap st' a).
Proof.
  intros Hinv [row r Hrun|r Hrun|Hseen Hmod Hheap] a Ha.
  - apply validate_and_transform_inv in Hrun as (Hrow & Hframe & Hr).
    destruct (decide (a = row)) as [->|Hne].
    + rewrite Hrow. destruct ((row_effect (heap st row)).2) as [t|e] eqn:Heff.
      * apply row_effect_accepted_form in Heff
          as (s & f & n & _ & _ & _ & _ & _ & _ & Hn & Hln). by exists n.
      * destruct Hr as (_ & _ & Hmod). rewrite Hmod in Ha.
        by apply row_effect_named, Hinv.
    + rewrite Hframe by done. apply Hinv.
      destruct ((row_effect (heap st row)).2); destruct Hr as (_ & _ & Hmod);
        rewrite Hmod in Ha; [|done].
      apply elem_of_app in Ha as [Ha|Ha%list_elem_of_singleton]; done.
  - unfold validate_unique_samples in Hrun.
    destruct (negb _).
    + injection Hrun as <- <-. by apply Hinv.
    + apply rename_loop_keeps in Hrun as (_ & Hmod & Hheap).
      rewrite Hmod in Ha. eapply named_keeps; [|by apply Hinv].
      apply Hheap. by destruct cols_ne as (_ & ? & _).
  - rewrite Hmod in Ha. rewrite Hheap by done. by apply Hinv.
Qed.

(** C9: the accepted rows have a non-empty value in the file-name column,
    and keep it through whatever is done with the checker afterwards:
    further rows offered (accepted or refused), the rename pass, and the
    caller's work on dicts the checker does not hold. *)
Theorem accepted_rows_named st st' :
  (∀ a, a ∈ modified st → named (heap st a)) →
  rtc step st st' →
  ∀ a, a ∈ modified st' → named (heap st' a).
Proof.
  intros Hinv Hsteps. induction Hsteps as [st|st st1 st' Hstep _ IH].
  - done.
  - apply IH. by eapply step_named.
Qed.

Lemma accepted_rows_named_witness :
  (∀ a, a ∈ modified fresh → named (heap fresh a))
  ∧ rtc step fresh (validate_unique_samples (offered [2; 3; 5])).2
  ∧ 2 ∈ modified (validate_unique_samples (offered [2; 3; 5])).2
  ∧ named (heap (validate_unique_samples (offered [2; 3; 5])).2 2).
Proof.
  assert (∀ a, a ∈ modified fresh → named (heap fresh a)) as Hinv
    by (intros a Ha; exfalso; exact (not_elem_of_nil a Ha)).
  assert (rtc step fresh (validate_unique_samples (offered [2; 3; 5])).2)
    as Hsteps.
  { eapply rtc_l; [by eapply (step_offer _ _ 2), surjective_pairing|].
    eapply rtc_l; [by eapply (step_offer _ _ 3), surjective_pairing|].
    eapply rtc_l; [by eapply (step_offer _ _ 5), surjective_pairing|].
    eapply rtc_l; [by eapply step_unique, surjective_pairing|].
    apply rtc_refl. }
  assert (2 ∈ modified (validate_unique_samples (offered [2; 3; 5])).2)
    as Hin by (vm_compute; left).
  repeat split; [exact Hinv|exact Hsteps|exact Hin|].
  exact (accepted_rows_named _ _ Hinv Hsteps 2 Hin).
Defined.

(** ** The uniqueness check and the rename pass *)

Lemma reaches_length ts st : reaches ts st → length ts = length (modified st).
Proof.
  intros (-> & _)%reaches_consistent. by rewrite length_fmap.
Qed.

Lemma reaches_rows_distinct ts st :
  reaches ts st → NoDup ts → NoDup (modified st).
Proof.
  intros (-> & _)%reaches_consistent. apply NoDup_fmap_1.
Qed.

Lemma reaches_sample ts st a :
  reaches ts st → a ∈ modified st →
  heap st a !! _sample_col = Some (sample_of st a).
Proof.
  intros (_ & _ & Hform)%reaches_consistent Ha.
  destruct (Hform a Ha) as (s & f & n & Hs & _). unfold sample_of.
  by rewrite Hs.
Qed.

Lemma reaches_renames ts st :
  reaches ts st → NoDup ts →
  ∃ h',
    validate_unique_samples st = (Ok tt, mkState h' (_seen st) (modified st))
    ∧ (∀ b, b ∉ modified st → h' b = heap st b)
    ∧ ∀ i a, modified st !! i = Some a →
        h' a = <[_sample_col :=
                   sample_of st a +:+ "_T"
                   +:+ Py.str (S (occurrences (sample_of st a)
                                    (take i (sample_of st <$> modified st))))]>
                 (heap st a).
Proof.
  intros Hreach Hnd.
  pose proof (reaches_length _ _ Hreach) as Hlen.
  pose proof (reaches_consistent _ _ Hreach) as (_ & Hseen & _).
  rewrite validate_unique_samples_loop
    by (rewrite Hseen, <- Hlen; by apply size_seen_NoDup).
  destruct (rename_loop_run (modified st) ∅ st) as (h' & Hrun & Hout & Hin).
  { by eapply reaches_rows_distinct. }
  { intros a Ha. rewrite (reaches_sample _ _ _ Hreach Ha). eauto. }
  exists h'. split; [done|]. split; [done|].
  intros i a Ha. rewrite (Hin i a Ha). apply renamed_eq.
  by rewrite lookup_empty.
Qed.

(** C3: in a checker that rows were offered to, [validate_unique_samples]
    raises "The pair of sample name and FASTQ must be unique." exactly when
    two of the accepted rows had the same key, which is exactly when
    [_seen] has fewer elements than [modified]; it raises nothing else,
    and when it raises the whole state, the rows included, is as before.
    Without such a pair it returns. *)
Theorem duplicate_rows_rejected ts st :
  reaches ts st →
  let duplicate := ∃ i j t, i < j ∧ ts !! i = Some t ∧ ts !! j = Some t in
  length ts = length (modified st)
  ∧ (validate_unique_samples st = (Raise (AssertionError not_unique), st)
     ↔ duplicate)
  ∧ (duplicate ↔ size (_seen st) < length (modified st))
  ∧ (∀ e st', validate_unique_samples st = (Raise e, st') →
              e = AssertionError not_unique ∧ st' = st)
  ∧ (¬ duplicate → ∃ st', validate_unique_samples st = (Ok tt, st')).
Proof.
  intros Hreach duplicate.
  pose proof (reaches_length _ _ Hreach) as Hlen.
  pose proof (reaches_consistent _ _ Hreach) as (_ & Hseen & _).
  pose proof (size_seen_le ts) as Hle.
  pose proof (size_seen_NoDup ts) as Hiff.
  pose proof (duplicate_iff ts) as Hdup. fold duplicate in Hdup.
  rewrite <- Hseen, Hlen in Hle, Hiff.
  split; [done|].
  destruct (decide (size (_seen st) = length (modified st))) as [Heq|Hne].
  - assert (NoDup ts) as Hnd by by apply Hiff.
    destruct (reaches_renames _ _ Hreach Hnd) as (h' & Hrun & _).
    rewrite Hrun. split; [|split; [|split]].
    + split; [discriminate|]. intros Hd. by apply Hdup in Hd.
    + split; [|lia]. intros Hd. by apply Hdup in Hd.
    + intros e st' [=].
    + intros _. eauto.
  - rewrite (validate_unique_samples_raise st Hne).
    assert (duplicate) as Hd by (apply Hdup; intros Hnd; by apply Hiff in Hnd).
    split; [|split; [|split]].
    + done.
    + split; [lia|done].
    + by intros e st' [= <- <-].
    + done.
Qed.

Lemma sample_reaches_two :
  reaches [("S1", "a.RCC", "a.RCC"); ("S1", "b.RCC", "b.RCC")]
    (offered [0; 1]).
Proof.
  apply (reaches_offered_accept [("S1", "a.RCC", "a.RCC")] [0] 1);
    [|vm_compute; reflexivity..].
  apply (reaches_offered_accept [] [] 0); [|vm_compute; reflexivity..].
  apply reaches_fresh.
Qed.

Lemma sample_reaches_duplicate :
  reaches [("S1", "a.RCC", "a.RCC"); ("S1", "b.RCC", "b.RCC");
           ("S1", "a.RCC", "a.RCC")] (offered [0; 1; 7]).
Proof.
  apply (reaches_offered_accept
           [("S1", "a.RCC", "a.RCC"); ("S1", "b.RCC", "b.RCC")] [0; 1] 7);
    [|vm_compute; reflexivity..].
  apply sample_reaches_two.
Qed.

Lemma duplicate_rows_rejected_witness :
  reaches [("S1", "a.RCC", "a.RCC"); ("S1", "b.RCC", "b.RCC");
           ("S1", "a.RCC", "a.RCC")] (offered [0; 1; 7])
  ∧ validate_unique_samples (offered [0; 1; 7])
    = (Raise (AssertionError not_unique), offered [0; 1; 7])
  ∧ size (_seen (offered [0; 1; 7])) < length (modified (offered [0; 1; 7])).
Proof.
  split; [exact sample_reaches_duplicate|].
  destruct (duplicate_rows_rejected _ _ sample_reaches_duplicate)
    as (_ & Hraise & Hsize & _).
  assert (∃ i j t, i < j
            ∧ [("S1", "a.RCC", "a.RCC"); ("S1", "b.RCC", "b.RCC");
               ("S1", "a.RCC", "a.RCC")] !! i = Some t
            ∧ [("S1", "a.RCC", "a.RCC"); ("S1", "b.RCC", "b.RCC");
               ("S1", "a.RCC", "a.RCC")] !! j = Some t) as Hdup.
  { exists 0, 2, ("S1", "a.RCC", "a.RCC"). repeat split. lia. }
  split; [by apply Hraise | by apply Hsize].
Defined.

Lemma occurrences_nil id : occurrences id [] = 0.
Proof. reflexivity. Qed.

(** The [j]+1-th occurrence of [id] exists when [id] occurs more than [j]
    times. *)
Lemma occurrence_position id ids : ∀ j,
  j < occurrences id ids →
  ∃ i, ids !! i = Some id ∧ occurrences id (take i ids) = j.
Proof.
  induction ids as [|x ids IH]; intros j.
  - rewrite occurrences_nil. lia.
  - rewrite occurrences_cons. destruct (decide (x = id)) as [->|Hne].
    + destruct j as [|j]; [by exists 0|]. intros Hj.
      destruct (IH j) as (i & Hi & Hocc); [lia|].
      exists (S i). split; [done|].
      rewrite firstn_cons, occurrences_cons, decide_True by done. lia.
    + intros Hj. destruct (IH j) as (i & Hi & Hocc); [lia|].
      exists (S i). split; [done|].
      rewrite firstn_cons, occurrences_cons, decide_False by done. lia.
Qed.

(** C4: when [validate_unique_samples] returns in a checker that rows were
    offered to, the row at position [i] with sample identifier [id] has
    its identifier rewritten to [id_T<n>], where [n] is one more than the
    number of earlier rows with that identifier, and is otherwise
    unchanged; so the rows of an identifier that occurs [k] times carry,
    in their order, the numbers 1 to [k].  Nothing else changes. *)
Theorem samples_renamed_in_order ts st st' :
  reaches ts st →
  validate_unique_samples st = (Ok tt, st') →
  let ids := sample_of st <$> modified st in
  _seen st' = _seen st ∧ modified st' = modified st
  ∧ (∀ b, b ∉ modified st → heap st' b = heap st b)
  ∧ (∀ i a, modified st !! i = Some a →
       ∃ id, heap st a !! _sample_col = Some id ∧ ids !! i = Some id
         ∧ heap st' a
           = <[_sample_col :=
                 id +:+ "_T" +:+ Py.str (S (occurrences id (take i ids)))]>
               (heap st a))
  ∧ (∀ id j, 1 ≤ j ≤ occurrences id ids →
       ∃ i a, modified st !! i = Some a
         ∧ heap st a !! _sample_col = Some id
         ∧ occurrences id (take i ids) = j - 1
         ∧ heap st' a !! _sample_col = Some (id +:+ "_T" +:+ Py.str j)).
Proof.
  intros Hreach Hrun ids.
  destruct (duplicate_iff ts) as [_ Hdup].
  assert (NoDup ts) as Hnd.
  { destruct (decide (NoDup ts)) as [Hnd|Hnd]; [done|].
    pose proof (reaches_length _ _ Hreach) as Hlen.
    pose proof (reaches_consistent _ _ Hreach) as (_ & Hseen & _).
    rewrite validate_unique_samples_raise in Hrun; [done|].
    rewrite Hseen, <- Hlen. by rewrite size_seen_NoDup. }
  destruct (reaches_renames _ _ Hreach Hnd) as (h' & Hrun' & Hout & Hin).
  rewrite Hrun' in Hrun. injection Hrun as <-. simpl.
  assert (∀ i a, modified st !! i = Some a →
            heap st a !! _sample_col = Some (sample_of st a)
            ∧ ids !! i = Some (sample_of st a)) as Hids.
  { intros i a Ha. split.
    - eapply reaches_sample; [done|]. by eapply list_elem_of_lookup_2.
    - unfold ids. by rewrite list_lookup_fmap, Ha. }
  split; [done|]. split; [done|]. split; [done|]. split.
  - intros i a Ha. destruct (Hids i a Ha) as [Hs Hi].
    exists (sample_of st a). by rewrite (Hin i a Ha).
  - intros id j [Hj1 Hjk].
    destruct (occurrence_position id ids (j - 1)) as (i & Hi & Hocc); [lia|].
    unfold ids in Hi. rewrite list_lookup_fmap in Hi.
    destruct (modified st !! i) as [a|] eqn:Ha; [|done].
    injection Hi as Hid. destruct (Hids i a Ha) as [Hs _].
    exists i, a. rewrite (Hin i a Ha), Hid. fold ids. rewrite Hocc.
    rewrite lookup_insert_eq. split; [done|]. split; [congruence|].
    split; [done|]. by replace (S (j - 1)) with j by lia.
Qed.

Lemma sample_reaches :
  reaches [("S1", "a.RCC", "a.RCC"); ("S1", "b.RCC", "b.RCC");
           ("S_2", "runs/c.RCC", "c.RCC")] (offered [0; 1; 2]).
Proof.
  apply (reaches_offered_accept
           [("S1", "a.RCC", "a.RCC"); ("S1", "b.RCC", "b.RCC")] [0; 1] 2);
    [|vm_compute; reflexivity..].
  apply sample_reaches_two.
Qed.

Lemma samples_renamed_in_order_witness :
  reaches [("S1", "a.RCC", "a.RCC"); ("S1", "b.RCC", "b.RCC");
           ("S_2", "runs/c.RCC", "c.RCC")] (offered [0; 1; 2])
  ∧ validate_unique_samples (offered [0; 1; 2])
    = (Ok tt, (validate_unique_samples (offered [0; 1; 2])).2)
  ∧ heap (validate_unique_samples (offered [0; 1; 2])).2 1 !! _sample_col
    = Some "S1_T2".
Proof.
  assert (validate_unique_samples (offered [0; 1; 2])
          = (Ok tt, (validate_unique_samples (offered [0; 1; 2])).2)) as Hrun
    by (apply run_eq; vm_compute; reflexivity).
  assert (modified (offered [0; 1; 2]) !! 1 = Some 1) as Hrow1
    by (vm_compute; reflexivity).
  assert (heap (offered [0; 1; 2]) 1 !! _sample_col = Some "S1") as Hid1
    by (vm_compute; reflexivity).
  assert ("S1" +:+ "_T"
          +:+ Py.str (S (occurrences "S1"
                           (take 1 (sample_of (offered [0; 1; 2])
                                      <$> modified (offered [0; 1; 2])))))
          = "S1_T2") as Hname by (vm_compute; reflexivity).
  split; [exact sample_reaches|]. split; [exact Hrun|].
  destruct (samples_renamed_in_order _ _ _ sample_reaches Hrun)
    as (_ & _ & _ & Hrow & _).
  destruct (Hrow 1 1 Hrow1) as (id & Hid & _ & ->).
  rewrite Hid1 in Hid. injection Hid as <-.
  rewrite lookup_insert_eq. exact (f_equal Some Hname).
Defined.

(** ** The driver *)

Lemma write_rows_head header st rows : ∀ out first records,
  out ≠ [] →
  write_rows header st rows out = Written (first :: records) →
  head out = Some first.
Proof.
  induction rows as [|row rest IH]; intros out first records Hout; simpl.
  - intros Heq. injection Heq as Heq. by rewrite Heq.
  - destruct (csv._dict_to_list header (heap st row)) as [cells|]; [|done].
    intros Hrest%IH; [|by destruct out]. by destruct out.
Qed.

Lemma validate_rows_stop rows : ∀ i st stop st' out,
  validate_rows i rows st = (Some stop, st') → stop ≠ Written out.
Proof.
  induction rows as [|row rest IH]; intros i st stop st' out; simpl; [done|].
  destruct (validate_and_transform i _) as [[[]|e] st1]; [by apply IH|].
  destruct e; by intros [= <- <-].
Qed.

(** The header of a written sheet is the header read, with RCC_FILE_NAME
    added at its end when it was not there. *)
Lemma written_header fieldnames rows first records :
  check_samplesheet fieldnames rows = Written (first :: records) →
  first = if bool_decide ("RCC_FILE_NAME" ∈ fieldnames) then fieldnames
          else fieldnames ++ ["RCC_FILE_NAME"].
Proof.
  unfold check_samplesheet. destruct (negb (forallb _ _)); [done|].
  destruct (validate_rows 0 rows RowChecker_init) as [[stop|] checker] eqn:Hv;
    [by intros ?%(validate_rows_stop _ _ _ _ _ _ Hv)|].
  intros Hhead%write_rows_head; [|done]. simpl in Hhead.
  injection Hhead as <-. by destruct (bool_decide _).
Qed.

(** C5: the sheet with header SAMPLE_ID,RCC_FILE and the record
    "Sample A,run1.RCC" is written with header
    SAMPLE_ID,RCC_FILE,RCC_FILE_NAME and the record
    Sample_A,run1.RCC,run1.RCC; the header of any written sheet is the
    header read, with RCC_FILE_NAME appended when it was not in it. *)
Theorem single_record_sheet :
  check_samplesheet_text ["SAMPLE_ID,RCC_FILE"; "Sample A,run1.RCC"]
  = Some (Written [["SAMPLE_ID"; "RCC_FILE"; "RCC_FILE_NAME"];
                   ["Sample_A"; "run1.RCC"; "run1.RCC"]])
  ∧ mapM csv.line [["SAMPLE_ID"; "RCC_FILE"; "RCC_FILE_NAME"];
                   ["Sample_A"; "run1.RCC"; "run1.RCC"]]
    = Some ["SAMPLE_ID,RCC_FILE,RCC_FILE_NAME"; "Sample_A,run1.RCC,run1.RCC"]
  ∧ ∀ fieldnames rows first records,
      check_samplesheet fieldnames rows = Written (first :: records) →
      first = if bool_decide ("RCC_FILE_NAME" ∈ fieldnames) then fieldnames
              else fieldnames ++ ["RCC_FILE_NAME"].
Proof.
  split; [vm_compute; reflexivity|]. split; [vm_compute; reflexivity|].
  apply written_header.
Qed.

Lemma single_record_sheet_witness :
  check_samplesheet ["SAMPLE_ID"; "RCC_FILE"] [record "Sample A" "run1.RCC"]
  = Written [["SAMPLE_ID"; "RCC_FILE"; "RCC_FILE_NAME"];
             ["Sample_A"; "run1.RCC"; "run1.RCC"]]
  ∧ ["SAMPLE_ID"; "RCC_FILE"; "RCC_FILE_NAME"]
    = ["SAMPLE_ID"; "RCC_FILE"] ++ ["RCC_FILE_NAME"].
Proof.
  assert (check_samplesheet ["SAMPLE_ID"; "RCC_FILE"]
            [record "Sample A" "run1.RCC"]
          = Written [["SAMPLE_ID"; "RCC_FILE"; "RCC_FILE_NAME"];
                     ["Sample_A"; "run1.RCC"; "run1.RCC"]]) as Hout
    by (vm_compute; reflexivity).
  split; [exact Hout|].
  destruct single_record_sheet as (_ & _ & Hheader).
  exact (Hheader _ _ _ _ Hout).
Defined.

Lemma validated_effect row :
  validated row = match (row_effect row).2 with
                  | Ok _ => Ok (row_effect row).1
                  | Raise e => Raise e
                  end.
Proof.
  unfold validated.
  destruct (validate_and_transform_run 0 (mkState (λ _, row) ∅ []))
    as (h' & Hrow & _ & ->). simpl in *.
  destruct ((row_effect row).2); simpl; congruence.
Qed.

Lemma validate_rows_run rows : ∀ i st,
  match validate_rows i rows st with
  | (None, st') =>
      ∃ dicts,
        Forall2 (λ row d, validated row = Ok d) rows dicts
        ∧ modified st' = modified st ++ seq i (length rows)
        ∧ (∀ j d, dicts !! j = Some d → heap st' (i + j) = d)
        ∧ (∀ a, a < i → heap st' a = heap st a)
  | (Some stop, _) =>
      ∃ j row e, rows !! j = Some row ∧ validated row = Raise e
  end.
Proof.
  induction rows as [|row rest IH]; intros i st; simpl.
  - exists []. rewrite app_nil_r. by repeat split.
  - set (st0 := mkState _ _ _).
    destruct (validate_and_transform i st0) as [r st1] eqn:Hrun.
    apply validate_and_transform_inv in Hrun as (Hrow & Hframe & Hr).
    assert (heap st0 i = row) as Hi by apply fn_lookup_insert.
    rewrite Hi in Hrow, Hr.
    pose proof (validated_effect row) as Hv.
    destruct ((row_effect row).2) as [t|e] eqn:Heff.
    + destruct Hr as (-> & _ & Hmod).
      specialize (IH (S i) st1).
      destruct (validate_rows (S i) rest st1) as [[stop|] st'].
      * destruct IH as (j & row' & e & Hj & He). by exists (S j), row', e.
      * destruct IH as (dicts & Hall & Hmod' & Hheap & Hold).
        exists ((row_effect row).1 :: dicts). repeat split.
        -- by constructor.
        -- rewrite Hmod', Hmod. simpl. by rewrite <- app_assoc.
        -- intros [|j] d Hd; simpl in Hd.
           ++ injection Hd as <-. rewrite Nat.add_0_r, Hold by lia. done.
           ++ rewrite <- Nat.add_succ_comm. by apply Hheap.
        -- intros a Ha. rewrite Hold by lia. rewrite Hframe by lia.
           apply fn_lookup_insert_ne. lia.
    + destruct Hr as (-> & _).
      destruct e; (eexists 0, row, _; split; [done|exact Hv]).
Qed.

Lemma write_rows_run header st rows : ∀ out out',
  write_rows header st rows out = Written out' →
  out' = out ++ ((λ a, cells header (heap st a)) <$> rows).
Proof.
  induction rows as [|row rest IH]; intros out out'; simpl.
  - intros [= <-]. by rewrite app_nil_r.
  - unfold csv._dict_to_list. destruct (bool_decide _); [|done].
    intros ->%IH. by rewrite <- app_assoc.
Qed.

(** C1, as the specification has it, fails: no run on two records that
    share the sample S1 writes them as S1_T1 and S1_T2. *)
Lemma shared_sample_not_renamed :
  ¬ ∃ header rest1 rest2,
      check_samplesheet_text ["SAMPLE_ID,RCC_FILE"; "S1,a.RCC"; "S1,b.RCC"]
      = Some (Written [header; "S1_T1" :: rest1; "S1_T2" :: rest2]).
Proof.
  intros (header & rest1 & rest2 & Hout).
  vm_compute in Hout. discriminate Hout.
Qed.

(** The rename pass itself, had it been called on the checker of those two
    records, gives S1_T1 and S1_T2. *)
Lemma shared_sample_renamed_by_pass :
  (validate_unique_samples (offered [0; 1])).1 = Ok tt
  ∧ (λ a, heap (validate_unique_samples (offered [0; 1])).2 a !! _sample_col)
      <$> [0; 1]
    = [Some "S1_T1"; Some "S1_T2"].
Proof. split; vm_compute; reflexivity. Qed.

(** The extension test lets through every file reference whose last
    character is one of the characters of [VALID_FORMATS]. *)
Lemma last_character_accepted a st s p c :
  heap st a !! _sample_col = Some s → s ≠ "" →
  heap st a !! _rcc_file = Some (p +:+ String c "") →
  (c = "." ∨ c = "R" ∨ c = "C")%char →
  (validate_and_transform a st).1 = Ok tt.
Proof.
  intros Hs Hne Hf Hc.
  destruct (row_effect_accepts (heap st a) s _ Hs Hne Hf) as [t Ht].
  - by destruct p.
  - apply format_accepts. eauto.
  - destruct (validate_and_transform a st) as [r st'] eqn:Hrun.
    apply validate_and_transform_inv in Hrun as (_ & _ & Hr).
    rewrite Ht in Hr. by destruct Hr as (-> & _).
Qed.

(** C2, as the code has it: [VALID_FORMATS] is the string ".RCC", and the
    test runs over its characters; a file reference that ends in "C", "R"
    or "." passes, so "data.C", which does not end in ".RCC", is
    accepted. *)
Theorem extension_test_accepts_last_character :
  Py.endswith "data.C" ".RCC" = false
  ∧ _validate_rcc_format "data.C" fresh = (Ok tt, fresh)
  ∧ (validate_and_transform 8 fresh).1 = Ok tt
  ∧ check_samplesheet_text ["SAMPLE_ID,RCC_FILE"; "S8,data.C"]
    = Some (Written [["SAMPLE_ID"; "RCC_FILE"; "RCC_FILE_NAME"];
                     ["S8"; "data.C"; "data.C"]]).
Proof. repeat split; vm_compute; reflexivity. Qed.

(** * Further properties of the code *)

(** ** read_head and sniff_format *)

Lemma join_empty_app l1 l2 :
  Py.join "" (l1 ++ l2) = Py.join "" l1 +:+ Py.join "" l2.
Proof.
  induction l1 as [|x l1 IH]; [done|].
  assert (∀ l, Py.join "" (x :: l) = x +:+ Py.join "" l) as Hcons.
  { intros [|y l]; simpl; [|done]. induction x as [|a x IHx]; [done|].
    by rewrite app_cons_s, <- IHx. }
  rewrite <- app_comm_cons, !Hcons, IH. by rewrite app_assoc_s.
Qed.

Lemma read_head_loop_run num_lines : ∀ remaining idx lines,
  idx ≤ num_lines →
  read_head_loop num_lines idx remaining lines
  = (lines ++ take (num_lines - idx) remaining,
     S (num_lines - idx) `min` length remaining).
Proof.
  induction remaining as [|line rest IH]; intros idx lines Hidx; simpl.
  - by rewrite take_nil, app_nil_r.
  - destruct (Nat.eqb_spec idx num_lines) as [->|Hne].
    + rewrite Nat.sub_diag. simpl. by rewrite app_nil_r.
    + rewrite IH by lia.
      replace (num_lines - idx) with (S (num_lines - S idx)) by lia.
      simpl. by rewrite <- app_assoc.
Qed.

(** X1: [read_head] returns the text of the next [num_lines] lines of the
    handle, or of all that are left when there are fewer, which is a
    prefix of the text left; it takes one line more from the handle than it
    returns whenever one is there, and none beyond the end. *)
Theorem read_head_prefix handle num_lines :
  let remaining := drop (position handle) (content handle) in
  read_head handle num_lines
  = (Py.join "" (take num_lines remaining),
     mkHandle (content handle)
       (position handle + S num_lines `min` length remaining))
  ∧ Py.join "" remaining
    = (read_head handle num_lines).1
      +:+ Py.join "" (drop num_lines remaining).
Proof.
  intros remaining. unfold read_head. fold remaining.
  rewrite read_head_loop_run by lia. rewrite Nat.sub_0_r. simpl.
  split; [done|]. by rewrite <- join_empty_app, take_drop.
Qed.

(** X2: [sniff_format] leaves the handle at the start of the file,
    whether a dialect is found or not and wherever the handle was; called
    on a handle at the start, it looks at the first ten lines only: two
    files that agree on them get the same answer. *)
Theorem sniff_format_first_lines (dialect : Type)
    (Sniffer_sniff : string → option dialect) (h1 h2 : Handle) :
  position h1 = 0 → position h2 = 0 →
  take 10 (content h1) = take 10 (content h2) →
  (sniff_format dialect Sniffer_sniff h1).1
  = (sniff_format dialect Sniffer_sniff h2).1
  ∧ (sniff_format dialect Sniffer_sniff h1).1
    = Sniffer_sniff (Py.join "" (take 10 (content h1)))
  ∧ (∀ h, (sniff_format dialect Sniffer_sniff h).2 = mkHandle (content h) 0).
Proof.
  intros Hp1 Hp2 Hhead.
  assert (∀ h, sniff_format dialect Sniffer_sniff h
               = (Sniffer_sniff
                    (Py.join "" (take 10 (drop (position h) (content h)))),
                  mkHandle (content h) 0)) as Hrun.
  { intros h. unfold sniff_format.
    destruct (read_head_prefix h 10) as [-> _]. done. }
  rewrite !Hrun, Hp1, Hp2. simpl. rewrite !drop_0, Hhead.
  repeat split. intros h. by rewrite Hrun.
Qed.

Lemma sniff_format_first_lines_witness :
  take 10 (content (mkHandle (replicate 10 "a,b" ++ ["x"]) 0))
  = take 10 (content (mkHandle (replicate 10 "a,b" ++ ["y"; "z"]) 0))
  ∧ (sniff_format nat (λ peek, Some (Py.len peek))
       (mkHandle (replicate 10 "a,b" ++ ["x"]) 0)).1
    = (sniff_format nat (λ peek, Some (Py.len peek))
         (mkHandle (replicate 10 "a,b" ++ ["y"; "z"]) 0)).1.
Proof.
  split; [reflexivity|].
  exact (proj1 (sniff_format_first_lines nat (λ peek, Some (Py.len peek))
                  (mkHandle (replicate 10 "a,b" ++ ["x"]) 0)
                  (mkHandle (replicate 10 "a,b" ++ ["y"; "z"]) 0)
                  eq_refl eq_refl eq_refl)).
Defined.

(** ** The row checks *)

(** X3: [_validate_rcc_format] changes nothing; it returns exactly for the
    file names whose last character is ".", "R" or "C" (the characters of
    [VALID_FORMATS]), so for every name that ends in ".RCC" and never for
    the empty name, and otherwise raises the unrecognized-extension
    error that quotes the name. *)
Theorem rcc_format_last_character filename st :
  (_validate_rcc_format filename st = (Ok tt, st)
   ∨ _validate_rcc_format filename st
     = (Raise (AssertionError (unrecognized_extension filename)), st))
  ∧ (_validate_rcc_format filename st = (Ok tt, st)
     ↔ ∃ p c, filename = p +:+ String c ""
              ∧ (c = "." ∨ c = "R" ∨ c = "C")%char)
  ∧ (ends_with_RCC filename = true →
     _validate_rcc_format filename st = (Ok tt, st))
  ∧ (filename = "" → _validate_rcc_format filename st ≠ (Ok tt, st)).
Proof.
  unfold _validate_rcc_format, raise, ret.
  pose proof (format_accepts filename) as Hacc.
  pose proof (format_accepts_RCC filename) as Hrcc.
  destruct (existsb _ _) eqn:Hfmt; simpl.
  - split; [by left|]. split; [by split; [intros _; apply Hacc|]|].
    split; [done|]. intros ->. by vm_compute in Hfmt.
  - split; [by right|]. split.
    + split; [done|]. intros Hlast%Hacc. done.
    + split; [|done]. intros Hr%Hrcc. done.
Qed.

Lemma rcc_format_last_character_witness :
  ends_with_RCC "runs/c.RCC" = true
  ∧ _validate_rcc_format "runs/c.RCC" fresh = (Ok tt, fresh).
Proof.
  split; [reflexivity|].
  destruct (rcc_format_last_character "runs/c.RCC" fresh)
    as (_ & _ & Hrcc & _).
  apply Hrcc. reflexivity.
Defined.

(** X4: a call of [validate_and_transform] that raises has still written
    to the dict it was given when the sample identifier passed its check:
    the dict is left with the identifier sanitized and nothing else
    changed; when the identifier is missing or empty the dict is as it
    was. *)
Theorem refused_row_keeps_sanitized_sample a st e st' :
  validate_and_transform a st = (Raise e, st') →
  heap st' a
  = match heap st a !! _sample_col with
    | Some s =>
        if decide (s = "") then heap st a
        else <[_sample_col := Py.replace " " "_" s]> (heap st a)
    | None => heap st a
    end.
Proof.
  intros (Ha & _ & Hr)%validate_and_transform_inv. rewrite Ha.
  destruct ((row_effect (heap st a)).2) as [t|e'] eqn:Heff;
    [by destruct Hr|].
  apply row_effect_raise in Heff
    as [(-> & _ & ->)|[(-> & _ & ->)|(s & -> & Hne & -> & _)]]; [done..|].
  by rewrite decide_False.
Qed.

Lemma refused_row_keeps_sanitized_sample_witness :
  validate_and_transform 4 (offered [])
  = (Raise (AssertionError (unrecognized_extension "data.txt")), offered [4])
  ∧ heap (offered [4]) 4 !! _sample_col = Some "S_4".
Proof.
  assert (validate_and_transform 4 (offered [])
          = (Raise (AssertionError (unrecognized_extension "data.txt")),
             offered [4])) as Hrun
    by (apply (offered_run []); vm_compute; reflexivity).
  split; [exact Hrun|].
  rewrite (refused_row_keeps_sanitized_sample _ _ _ _ Hrun).
  reflexivity.
Defined.

(** X5: a dict without the sample column makes [validate_and_transform]
    raise [KeyError] for that column with nothing changed; with a
    non-empty identifier but without the file column it raises [KeyError]
    for the file column; a dict that has both columns never makes it raise
    a [KeyError], the file-name column being optional. *)
Theorem missing_column_key_error a st r st' :
  validate_and_transform a st = (r, st') →
  (heap st a !! _sample_col = None →
   r = Raise (KeyError _sample_col) ∧ st' = st)
  ∧ (∀ s, heap st a !! _sample_col = Some s → s ≠ "" →
          heap st a !! _rcc_file = None → r = Raise (KeyError _rcc_file))
  ∧ (is_Some (heap st a !! _sample_col) →
     is_Some (heap st a !! _rcc_file) → ∀ key, r ≠ Raise (KeyError key)).
Proof.
  intros Hrun. split; [|split].
  - intros Hnone. unfold validate_and_transform, bind in Hrun.
    rewrite _validate_sample_run, Hnone in Hrun. by injection Hrun as <- <-.
  - intros s Hs Hne Hf.
    apply validate_and_transform_inv in Hrun as (_ & _ & Hr).
    destruct ((row_effect (heap st a)).2) as [t|e] eqn:Heff.
    + apply row_effect_ok in Heff as (? & ? & ? & _ & _ & ? & _). congruence.
    + destruct Hr as (-> & _). apply row_effect_raise in Heff
        as [(? & _)|[(? & _)|(? & _ & _ & _ & He)]]; [congruence..|].
      destruct He as [(_ & ->)|[(? & _)|(? & ? & _)]]; [done|congruence..].
  - intros [s Hs] [f Hf] key ->.
    apply validate_and_transform_inv in Hrun as (_ & _ & Hr).
    destruct ((row_effect (heap st a)).2) as [t|e] eqn:Heff;
      [by destruct Hr|].
    destruct Hr as ([= <-] & _). apply row_effect_raise in Heff
      as [(? & _)|[(_ & ? & _)|(? & _ & _ & _ & He)]]; [congruence..|].
    destruct He as [(? & _)|[(_ & ?)|(? & _ & _ & _ & ?)]]; congruence.
Qed.

Lemma missing_column_key_error_witness :
  validate_and_transform 9 fresh = (Raise (KeyError _sample_col), fresh).
Proof.
  destruct (validate_and_transform 9 fresh) as [r st'] eqn:Hrun.
  destruct (missing_column_key_error _ _ _ _ Hrun) as (Hmissing & _).
  destruct Hmissing as [-> ->]; reflexivity.
Defined.

(** ** Rows offered twice, and the renamed identifiers *)

(** X6: offering again a row the checker already accepted is accepted
    again: the dict is not changed and [_seen] is not changed, but the row
    is in [modified] once more, so that [validate_unique_samples] then
    raises. *)
Theorem row_offered_again ts st a :
  reaches ts st → a ∈ modified st →
  ∃ st', validate_and_transform a st = (Ok tt, st')
    ∧ (∀ b, heap st' b = heap st b)
    ∧ _seen st' = _seen st
    ∧ modified st' = modified st ++ [a]
    ∧ validate_unique_samples st'
      = (Raise (AssertionError not_unique), st').
Proof.
  intros Hreach Ha.
  pose proof (reaches_consistent _ _ Hreach) as (Hts & Hseen & Hform).
  pose proof (Hform a Ha) as Hshape.
  destruct (validate_and_transform a st) as [r st'] eqn:Hrun.
  pose proof (accepted_row_accepted _ _ _ _ Hrun Hshape) as ->.
  pose proof Hrun as (Hrow & Hframe & Hr)%validate_and_transform_inv.
  rewrite (accepted_form_effect _ Hshape) in Hrow, Hr. simpl in Hrow, Hr.
  destruct Hr as (_ & Hseen' & Hmod').
  assert (key_of (heap st a) ∈ _seen st) as Hin.
  { rewrite Hseen, Hts. apply elem_of_list_to_set, list_elem_of_fmap.
    by exists a. }
  assert (_seen st' = _seen st) as Hsame by (rewrite Hseen'; set_solver).
  exists st'. split; [done|]. split; [|split; [done|split; [done|]]].
  - intros b. destruct (decide (b = a)) as [->|Hne]; [done|by apply Hframe].
  - apply validate_unique_samples_raise.
    rewrite Hsame, Hmod', length_app, Hseen. simpl.
    pose proof (size_seen_le ts) as Hle.
    pose proof (reaches_length _ _ Hreach) as Hlen. lia.
Qed.

Lemma row_offered_again_witness :
  reaches [("S1", "a.RCC", "a.RCC"); ("S1", "b.RCC", "b.RCC")]
    (offered [0; 1])
  ∧ 0 ∈ modified (offered [0; 1])
  ∧ ∃ st', validate_and_transform 0 (offered [0; 1]) = (Ok tt, st')
      ∧ validate_unique_samples st'
        = (Raise (AssertionError not_unique), st').
Proof.
  assert (0 ∈ modified (offered [0; 1])) as Hin by (vm_compute; left).
  split; [exact sample_reaches_two|]. split; [exact Hin|].
  destruct (row_offered_again _ _ 0 sample_reaches_two Hin)
    as (st' & Hrun & _ & _ & _ & Hraise).
  exists st'. split; [exact Hrun|exact Hraise].
Defined.

Lemma has_app_here c s d : Py.has c (s +:+ String c d) = true.
Proof.
  induction s as [|a s IH]; [simpl; by rewrite Ascii.eqb_refl|].
  rewrite app_cons_s. simpl. by rewrite IH, orb_true_r.
Qed.

(** A string is cut in one way only at the last occurrence of [c]. *)
Lemma last_marker_inj c : ∀ s1 s2 d1 d2,
  Py.has c d1 = false → Py.has c d2 = false →
  s1 +:+ String c d1 = s2 +:+ String c d2 → s1 = s2 ∧ d1 = d2.
Proof.
  induction s1 as [|a s1 IH]; intros [|b s2] d1 d2 Hd1 Hd2;
    rewrite ?app_nil_s, ?app_cons_s; intros Heq.
  - by injection Heq as ->.
  - injection Heq as _ Heq. rewrite Heq, has_app_here in Hd1. done.
  - injection Heq as _ Heq. rewrite <- Heq, has_app_here in Hd2. done.
  - injection Heq as -> Heq.
    by destruct (IH s2 d1 d2 Hd1 Hd2 Heq) as [-> ->].
Qed.

Lemma snoc_inj c : ∀ s1 s2,
  s1 +:+ String c "" = s2 +:+ String c "" → s1 = s2.
Proof.
  induction s1 as [|a s1 IH]; intros [|b s2];
    rewrite ?app_nil_s, ?app_cons_s; intros Heq.
  - done.
  - injection Heq as _ Heq. by destruct s2.
  - injection Heq as _ Heq. by destruct s1.
  - injection Heq as -> Heq. by rewrite (IH s2 Heq).
Qed.

(** The decimal text of a number holds no "T". *)
Lemma pretty_N_go_no_T x : ∀ s,
  Py.has "T" s = false → Py.has "T" (pretty_N_go x s) = false.
Proof.
  induction (N.lt_wf_0 x) as [x _ IH]; intros s Hs.
  assert (x = 0 ∨ 0 < x)%N as [->|Hpos] by lia.
  - by rewrite pretty_N_go_0.
  - rewrite pretty_N_go_step by done. apply IH; [by apply N.div_lt|].
    simpl. rewrite Hs, orb_false_r.
    unfold pretty_N_char. by repeat case_match.
Qed.

Lemma str_no_T n : Py.has "T" (Py.str n) = false.
Proof.
  unfold Py.str, pretty, pretty_nat, pretty, pretty_N.
  case_decide; [done|]. by apply pretty_N_go_no_T.
Qed.

(** The identifier and the number can be read back from a renamed
    identifier. *)
Lemma renamed_inj id1 id2 n1 n2 :
  id1 +:+ "_T" +:+ Py.str n1 = id2 +:+ "_T" +:+ Py.str n2 →
  id1 = id2 ∧ n1 = n2.
Proof.
  change (id1 +:+ "_T" +:+ Py.str n1)
    with (id1 +:+ "_" +:+ String "T" (Py.str n1)).
  change (id2 +:+ "_T" +:+ Py.str n2)
    with (id2 +:+ "_" +:+ String "T" (Py.str n2)).
  rewrite <- !app_assoc_s.
  intros [Hid Hn]%last_marker_inj; [|apply str_no_T..].
  split; [by apply (snoc_inj "_")|].
  by apply (inj pretty) in Hn.
Qed.

Lemma occurrences_app id ids1 ids2 :
  occurrences id (ids1 ++ ids2) = occurrences id ids1 + occurrences id ids2.
Proof. unfold occurrences. by rewrite filter_app, length_app. Qed.

Lemma occurrences_grow id ids i j :
  ids !! i = Some id → i < j →
  occurrences id (take i ids) < occurrences id (take j ids).
Proof.
  intros Hi Hlt.
  replace j with (i + S (j - S i)) by lia.
  rewrite <- take_take_drop, occurrences_app.
  rewrite (drop_S _ _ _ Hi). simpl.
  rewrite occurrences_cons, decide_True by done. lia.
Qed.

Lemma unique_pass_keys_distinct ts st st' :
  reaches ts st → validate_unique_samples st = (Ok tt, st') → NoDup ts.
Proof.
  intros Hreach Hrun.
  destruct (decide (NoDup ts)) as [Hnd|Hnd]; [done|].
  pose proof (reaches_length _ _ Hreach) as Hlen.
  pose proof (reaches_consistent _ _ Hreach) as (_ & Hseen & _).
  rewrite validate_unique_samples_raise in Hrun; [done|].
  rewrite Hseen, <- Hlen. by rewrite size_seen_NoDup.
Qed.

(** X7: after [validate_unique_samples] has returned, in a checker that
    rows were offered to, the sample identifiers of the accepted rows are
    pairwise distinct: the identifier and the number can be read back from
    [<id>_T<n>], and two rows never get both the same. *)
Theorem renamed_samples_distinct ts st st' :
  reaches ts st →
  validate_unique_samples st = (Ok tt, st') →
  NoDup (sample_of st' <$> modified st')
  ∧ ∀ a, a ∈ modified st' → is_Some (heap st' a !! _sample_col).
Proof.
  intros Hreach Hrun.
  pose proof (unique_pass_keys_distinct _ _ _ Hreach Hrun) as Hnd.
  destruct (reaches_renames _ _ Hreach Hnd) as (h' & Hrun' & _ & Hin).
  rewrite Hrun' in Hrun. injection Hrun as <-. simpl.
  set (ids := sample_of st <$> modified st) in *.
  assert (∀ i a, modified st !! i = Some a →
            ids !! i = Some (sample_of st a)
            ∧ h' a !! _sample_col
              = Some (sample_of st a +:+ "_T"
                      +:+ Py.str (S (occurrences (sample_of st a)
                                       (take i ids))))) as Hnew.
  { intros i a Ha. split.
    - unfold ids. by rewrite list_lookup_fmap, Ha.
    - rewrite (Hin i a Ha). apply lookup_insert_eq. }
  split.
  - apply NoDup_alt. intros i j x.
    rewrite !list_lookup_fmap.
    destruct (modified st !! i) as [a|] eqn:Ha; [|done].
    destruct (modified st !! j) as [b|] eqn:Hb; [|done].
    destruct (Hnew i a Ha) as [Hia Hsa]. destruct (Hnew j b Hb) as [Hjb Hsb].
    simpl. unfold sample_of at 1 2. simpl. rewrite Hsa, Hsb. simpl.
    intros [= <-] [= Heq]. apply renamed_inj in Heq as [Hid Hocc].
    rewrite Hid in Hjb, Hocc.
    destruct (Nat.lt_trichotomy i j) as [Hlt|[Heq|Hgt]]; [|done|].
    + pose proof (occurrences_grow _ _ _ _ Hia Hlt). lia.
    + pose proof (occurrences_grow _ _ _ _ Hjb Hgt). lia.
  - intros a [i Ha]%list_elem_of_lookup.
    destruct (Hnew i a Ha) as [_ Hsa]. by rewrite Hsa.
Qed.

Lemma renamed_samples_distinct_witness :
  reaches [("S1", "a.RCC", "a.RCC"); ("S1", "b.RCC", "b.RCC");
           ("S_2", "runs/c.RCC", "c.RCC")] (offered [0; 1; 2])
  ∧ NoDup (sample_of (validate_unique_samples (offered [0; 1; 2])).2
             <$> modified (validate_unique_samples (offered [0; 1; 2])).2).
Proof.
  assert (validate_unique_samples (offered [0; 1; 2])
          = (Ok tt, (validate_unique_samples (offered [0; 1; 2])).2)) as Hrun
    by (apply run_eq; vm_compute; reflexivity).
  split; [exact sample_reaches|].
  exact (proj1 (renamed_samples_distinct _ _ _ sample_reaches Hrun)).
Defined.

(** ** The driver, record by record *)

Lemma offer_result a st :
  (validate_and_transform a st).1
  = match validated (heap st a) with Ok _ => Ok tt | Raise e => Raise e end.
Proof.
  destruct (validate_and_transform a st) as [r st'] eqn:Hrun.
  apply validate_and_transform_inv in Hrun as (_ & _ & Hr).
  rewrite validated_effect. simpl.
  by destruct ((row_effect (heap st a)).2); destruct Hr as (-> & _).
Qed.

Lemma validate_rows_refused i row rest st e :
  validated row = Raise e →
  (validate_rows i (row :: rest) st).1 = Some (refusal i e).
Proof.
  intros Hv. simpl. set (st0 := mkState _ _ _).
  pose proof (offer_result i st0) as Hr.
  assert (heap st0 i = row) as Hi by apply fn_lookup_insert.
  rewrite Hi, Hv in Hr.
  destruct (validate_and_transform i st0) as [r st1]. simpl in Hr. subst r.
  by destruct e.
Qed.

Lemma validate_rows_passed i row rest st :
  passes row →
  ∃ st1, validate_rows i (row :: rest) st = validate_rows (S i) rest st1.
Proof.
  intros [d Hv]. simpl. set (st0 := mkState _ _ _).
  pose proof (offer_result i st0) as Hr.
  assert (heap st0 i = row) as Hi by apply fn_lookup_insert.
  rewrite Hi, Hv in Hr.
  destruct (validate_and_transform i st0) as [r st1]. simpl in Hr. subst r.
  by exists st1.
Qed.

Lemma validate_rows_first_refused good : ∀ i bad rest st e,
  Forall passes good →
  validated bad = Raise e →
  (validate_rows i (good ++ bad :: rest) st).1
  = Some (refusal (i + length good) e).
Proof.
  induction good as [|row good IH]; intros i bad rest st e Hgood Hbad.
  - rewrite Nat.add_0_r. by apply validate_rows_refused.
  - apply Forall_cons in Hgood as [Hrow Hgood].
    destruct (validate_rows_passed i row (good ++ bad :: rest) st Hrow)
      as [st1 Hstep].
    rewrite <- app_comm_cons, Hstep, (IH (S i) bad rest st1 e Hgood Hbad).
    simpl. do 2 f_equal. lia.
Qed.

Lemma validate_rows_all_passed rows dicts i st :
  Forall2 (λ row d, validated row = Ok d) rows dicts →
  ∃ st', validate_rows i rows st = (None, st')
    ∧ modified st' = modified st ++ seq i (length rows)
    ∧ ∀ j d, dicts !! j = Some d → heap st' (i + j) = d.
Proof.
  intros Hall. pose proof (validate_rows_run rows i st) as Hrun.
  destruct (validate_rows i rows st) as [[stop|] st'].
  - destruct Hrun as (j & row & e & Hj & He).
    destruct (Forall2_lookup_l _ _ _ _ _ Hall Hj) as (d & _ & Hd). congruence.
  - destruct Hrun as (dicts' & Hall' & Hmod & Hheap & _).
    exists st'. split; [done|]. split; [done|].
    assert (dicts' = dicts) as ->; [|done].
    clear -Hall Hall'. revert dicts' Hall'.
    induction Hall as [|row d rows dicts Hd _ IH]; intros dicts' Hall'.
    + by apply Forall2_nil_inv_l in Hall'.
    + apply Forall2_cons_inv_l in Hall' as (d' & dicts'' & Hd' & Hrest & ->).
      f_equal; [congruence|by apply IH].
Qed.

Lemma required_present (fieldnames : list string) :
  forallb (λ c, bool_decide (c ∈ fieldnames)) required_columns = true
  ↔ "RCC_FILE" ∈ fieldnames ∧ "SAMPLE_ID" ∈ fieldnames.
Proof.
  unfold required_columns. simpl.
  rewrite !andb_true_iff, !bool_decide_eq_true. tauto.
Qed.

Lemma write_rows_all header st rows : ∀ out,
  (∀ a, a ∈ rows → dom (heap st a) ⊆ list_to_set header) →
  write_rows header st rows out
  = Written (out ++ ((λ a, cells header (heap st a)) <$> rows)).
Proof.
  induction rows as [|row rest IH]; intros out Hdom; simpl.
  - by rewrite app_nil_r.
  - unfold csv._dict_to_list.
    rewrite bool_decide_eq_true_2 by (apply Hdom; by left).
    rewrite IH by (intros a Ha; apply Hdom; by right).
    by rewrite <- app_assoc.
Qed.

Lemma write_rows_dom header st rows : ∀ out out',
  write_rows header st rows out = Written out' →
  ∀ a, a ∈ rows → dom (heap st a) ⊆ list_to_set header.
Proof.
  induction rows as [|row rest IH]; intros out out' Hout a Ha.
  - by apply not_elem_of_nil in Ha.
  - simpl in Hout. unfold csv._dict_to_list in Hout.
    destruct (bool_decide _) eqn:Hdom; [|done].
    apply bool_decide_eq_true in Hdom.
    apply elem_of_cons in Ha as [->|Ha]; [done|]. by eapply IH.
Qed.

(** The sheet is written exactly when the header has the required columns,
    every record passes, and no dict has a key outside the output
    header. *)
Lemma check_samplesheet_written_iff (fieldnames : list string) rows out :
  check_samplesheet fieldnames rows = Written out
  ↔ ("RCC_FILE" ∈ fieldnames ∧ "SAMPLE_ID" ∈ fieldnames)
    ∧ ∃ dicts,
        Forall2 (λ row d, validated row = Ok d) rows dicts
        ∧ Forall (λ d, dom d ⊆ list_to_set (output_header fieldnames)) dicts
        ∧ out = output_header fieldnames
                :: (cells (output_header fieldnames) <$> dicts).
Proof.
  unfold check_samplesheet. fold (output_header fieldnames).
  pose proof (required_present fieldnames) as Hreq.
  destruct (forallb _ required_columns); simpl.
  2:{ split; [done|]. intros [Hcols _]. apply Hreq in Hcols. done. }
  split.
  - intros Hout. split; [by apply Hreq|].
    pose proof (validate_rows_run rows 0 RowChecker_init) as Hrows.
    destruct (validate_rows 0 rows RowChecker_init) as [[stop|] st] eqn:Hv.
    { by apply (validate_rows_stop _ _ _ _ _ out) in Hv. }
    destruct Hrows as (dicts & Hall & Hmod & Hheap & _). simpl in Hmod.
    pose proof (write_rows_dom _ _ _ _ _ Hout) as Hdom.
    apply write_rows_run in Hout. exists dicts.
    assert (length rows = length dicts) as Hlen by by eapply Forall2_length.
    split; [done|]. split.
    + apply Forall_lookup. intros j d Hd.
      rewrite <- (Hheap j d Hd). apply Hdom. rewrite Hmod.
      apply elem_of_seq. apply lookup_lt_Some in Hd. simpl. lia.
    + rewrite Hout. simpl. f_equal. rewrite Hmod, Hlen.
      apply list_eq. intros j. rewrite !list_lookup_fmap.
      destruct (dicts !! j) as [d|] eqn:Hd; simpl.
      * rewrite lookup_seq_lt by (by eapply lookup_lt_Some). simpl.
        by rewrite <- (Hheap j d Hd).
      * rewrite lookup_seq_ge; [done|]. by apply lookup_ge_None.
  - intros (_ & dicts & Hall & Hdom & ->).
    destruct (validate_rows_all_passed rows dicts 0 RowChecker_init Hall)
      as (st & -> & Hmod & Hheap). simpl in Hmod.
    assert (length rows = length dicts) as Hlen by by eapply Forall2_length.
    rewrite write_rows_all.
    + simpl. do 2 f_equal. rewrite Hmod, Hlen.
      apply list_eq. intros j. rewrite !list_lookup_fmap.
      destruct (dicts !! j) as [d|] eqn:Hd; simpl.
      * rewrite lookup_seq_lt by (by eapply lookup_lt_Some). simpl.
        by rewrite <- (Hheap j d Hd).
      * rewrite lookup_seq_ge; [done|]. by apply lookup_ge_None.
    + intros a. rewrite Hmod, Hlen. intros [_ Ha]%elem_of_seq. simpl in Ha.
      destruct (lookup_lt_is_Some_2 dicts a Ha) as [d Hd].
      pose proof (Hheap a d Hd) as Hthere. simpl in Hthere.
      rewrite Hthere. exact (Forall_lookup_1 _ _ _ _ Hdom Hd).
Qed.

Lemma validated_ok row d :
  validated row = Ok d →
  accepted_form d
  ∧ dom d = dom row ∪ {[_rcc_file_name]}
  ∧ ∀ k, k ≠ _sample_col → k ≠ _rcc_file_name → d !! k = row !! k.
Proof.
  rewrite validated_effect.
  destruct ((row_effect row).2) as [t|] eqn:Heff; [|done]. intros [= <-].
  split; [by eapply row_effect_accepted_form|].
  split; [|intros k; apply row_effect_other].
  apply row_effect_ok in Heff
    as (s & f & n & Hs & _ & _ & _ & _ & _ & _ & _ & ->).
  rewrite !dom_insert_L.
  assert (_sample_col ∈ dom row) by (apply elem_of_dom; eauto).
  set_solver.
Qed.

Lemma accepted_form_validated d : accepted_form d → validated d = Ok d.
Proof.
  intros Hd. by rewrite validated_effect, (accepted_form_effect _ Hd).
Qed.

Lemma validated_raise row e :
  is_Some (row !! _sample_col) → is_Some (row !! _rcc_file) →
  validated row = Raise e → ∃ error, e = AssertionError error.
Proof.
  intros [s Hs] [f Hf]. rewrite validated_effect.
  destruct ((row_effect row).2) as [t|e'] eqn:Heff; [done|]. intros [= ->].
  apply row_effect_raise in Heff
    as [(? & _)|[(_ & -> & _)|(? & _ & _ & _ & He)]]; [congruence|eauto|].
  destruct He as [(? & _)|[(_ & ->)|(? & _ & _ & _ & ->)]];
    [congruence|eauto..].
Qed.

Lemma passes_check row :
  match validated row with Ok _ => true | Raise _ => false end = true →
  passes row.
Proof. destruct (validated row) as [d|] eqn:Hv; [by exists d|done]. Qed.

Lemma first_refused rows :
  Forall passes rows
  ∨ ∃ good bad rest e,
      rows = good ++ bad :: rest ∧ Forall passes good
      ∧ validated bad = Raise e.
Proof.
  induction rows as [|row rows IH]; [by left|].
  destruct (validated row) as [d|e] eqn:Hv.
  - destruct IH as [Hall|(good & bad & rest & e & -> & Hgood & Hbad)].
    + left. constructor; [by exists d|done].
    + right. exists (row :: good), bad, rest, e.
      split; [done|]. split; [|done]. constructor; [by exists d|done].
  - right. by exists [], row, rows, e.
Qed.

Lemma output_header_spec (fieldnames : list string) :
  "RCC_FILE_NAME" ∈ output_header fieldnames
  ∧ (∀ k, k ∈ fieldnames → k ∈ output_header fieldnames)
  ∧ ("RCC_FILE_NAME" ∈ fieldnames → output_header fieldnames = fieldnames).
Proof.
  unfold output_header.
  destruct (decide ("RCC_FILE_NAME" ∈ fieldnames)) as [Hin|Hin].
  - rewrite bool_decide_eq_true_2 by done. by repeat split.
  - rewrite bool_decide_eq_false_2 by done. simpl. split; [|split; [|done]].
    + apply elem_of_app. right. by left.
    + intros k Hk. apply elem_of_app. by left.
Qed.

Lemma missing_header (fieldnames : list string) rows :
  ("RCC_FILE" ∉ fieldnames) ∨ ("SAMPLE_ID" ∉ fieldnames) →
  ∃ critical, check_samplesheet fieldnames rows = SystemExit 1 critical.
Proof.
  intros Hmissing. unfold check_samplesheet.
  pose proof (required_present fieldnames) as Hreq.
  destruct (forallb _ required_columns); simpl; [|eauto].
  destruct Hreq as [[Hfile Hsample] _]; [done|].
  destruct Hmissing as [Hno|Hno]; by destruct Hno.
Qed.

Lemma all_passed rows :
  Forall passes rows →
  ∃ dicts, Forall2 (λ row d, validated row = Ok d) rows dicts.
Proof.
  induction 1 as [|row rows [d Hd] _ [dicts IH]].
  - by exists [].
  - exists (d :: dicts). by constructor.
Qed.

Lemma validated_sample row d :
  validated row = Ok d →
  ∃ s, row !! _sample_col = Some s
       ∧ d !! _sample_col = Some (Py.replace " " "_" s).
Proof.
  rewrite validated_effect.
  destruct ((row_effect row).2) as [t|] eqn:Heff; [|done]. intros [= <-].
  pose proof Heff as (s & f & n & Hs & Hne & _)%row_effect_ok.
  exists s. split; [done|]. by apply row_effect_sample.
Qed.

(** C1, as the code has it: for every sheet whose header has the required
    columns and whose records all pass [validate_and_transform] and have
    no key outside the header, [check_samplesheet] writes the output
    header followed by each accepted row as [validate_and_transform] left
    it, in the order read, and never calls [validate_unique_samples]: the
    sample identifier written is the one read with its spaces replaced.
    Two records that share the sample S1 are written with the sample S1
    both. *)
Theorem rows_written_as_validated (fieldnames : list string) rows :
  "RCC_FILE" ∈ fieldnames → "SAMPLE_ID" ∈ fieldnames →
  Forall passes rows →
  Forall (λ row, dom row ⊆ list_to_set fieldnames) rows →
  (∃ dicts,
     Forall2 (λ row d, validated row = Ok d
                ∧ ∃ s, row !! _sample_col = Some s
                       ∧ d !! _sample_col = Some (Py.replace " " "_" s))
             rows dicts
     ∧ check_samplesheet fieldnames rows
       = Written (output_header fieldnames
                  :: (cells (output_header fieldnames) <$> dicts)))
  ∧ check_samplesheet_text ["SAMPLE_ID,RCC_FILE"; "S1,a.RCC"; "S1,b.RCC"]
    = Some (Written [["SAMPLE_ID"; "RCC_FILE"; "RCC_FILE_NAME"];
                     ["S1"; "a.RCC"; "a.RCC"];
                     ["S1"; "b.RCC"; "b.RCC"]]).
Proof.
  intros Hfile Hsample Hpass Hdom. split; [|vm_compute; reflexivity].
  destruct (all_passed rows Hpass) as [dicts Hall].
  exists dicts. split.
  - eapply Forall2_impl; [exact Hall|]. intros row d Hd. simpl in Hd.
    split; [done|]. by apply validated_sample.
  - apply check_samplesheet_written_iff. split; [done|].
    exists dicts. split; [done|]. split; [|done].
    destruct (output_header_spec fieldnames) as (Hname & Hkeep & _).
    apply Forall_lookup. intros j d Hd.
    destruct (Forall2_lookup_r _ _ _ _ _ Hall Hd) as (row & Hrow & Hv).
    apply validated_ok in Hv as (_ & -> & _).
    pose proof (Forall_lookup_1 _ _ _ _ Hdom Hrow) as Hsub. simpl in Hsub.
    intros k [Hk| ->%elem_of_singleton]%elem_of_union;
      apply elem_of_list_to_set; [|done].
    apply Hkeep. apply Hsub in Hk. by apply elem_of_list_to_set in Hk.
Qed.

Lemma rows_written_as_validated_witness :
  Forall passes
    [record "S 1" "a.RCC"; record "S 1" "b.RCC"; record "S 1" "a.RCC"]
  ∧ ∃ dicts,
      Forall2 (λ row d, validated row = Ok d
                 ∧ ∃ s, row !! _sample_col = Some s
                        ∧ d !! _sample_col = Some (Py.replace " " "_" s))
        [record "S 1" "a.RCC"; record "S 1" "b.RCC"; record "S 1" "a.RCC"]
        dicts
      ∧ check_samplesheet ["SAMPLE_ID"; "RCC_FILE"]
          [record "S 1" "a.RCC"; record "S 1" "b.RCC"; record "S 1" "a.RCC"]
        = Written (output_header ["SAMPLE_ID"; "RCC_FILE"]
                   :: (cells (output_header ["SAMPLE_ID"; "RCC_FILE"])
                         <$> dicts)).
Proof.
  assert (Forall passes
            [record "S 1" "a.RCC"; record "S 1" "b.RCC";
             record "S 1" "a.RCC"]) as Hpass
    by (repeat constructor; apply passes_check; vm_compute; reflexivity).
  split; [exact Hpass|].
  apply (rows_written_as_validated ["SAMPLE_ID"; "RCC_FILE"]);
    [apply (bool_decide_unpack _); by vm_compute
    |apply (bool_decide_unpack _); by vm_compute|exact Hpass|].
  apply Forall_cons. split; [apply (bool_decide_unpack _); by vm_compute|].
  apply Forall_cons. split; [apply (bool_decide_unpack _); by vm_compute|].
  apply Forall_cons. split; [apply (bool_decide_unpack _); by vm_compute|].
  apply Forall_nil_2.
Defined.

(** X8: a header without RCC_FILE or without SAMPLE_ID ends the run with
    exit status 1, whatever the records are: none of them is looked at and
    nothing is written. *)
Theorem missing_required_column (fieldnames : list string) rows :
  ("RCC_FILE" ∉ fieldnames) ∨ ("SAMPLE_ID" ∉ fieldnames) →
  ∃ critical, check_samplesheet fieldnames rows = SystemExit 1 critical.
Proof. apply missing_header. Qed.

Lemma missing_required_column_witness :
  ("RCC_FILE" ∉ ["SAMPLE_ID"; "TIME"])
  ∧ ∃ critical,
      check_samplesheet ["SAMPLE_ID"; "TIME"] [record "S1" "a.RCC"]
      = SystemExit 1 critical.
Proof.
  assert ("RCC_FILE" ∉ ["SAMPLE_ID"; "TIME"]) as Hmissing
    by (apply (bool_decide_unpack _); by vm_compute).
  split; [exact Hmissing|].
  apply missing_required_column. left. exact Hmissing.
Defined.

(** X9: when the header has the required columns, the run stops at the
    first record that a check refuses: it exits with status 1 and the
    message of that check followed by the line of that record in the file
    (its index plus two); the records after it are not looked at and
    nothing is written. *)
Theorem first_refused_record (fieldnames : list string) good bad rest error :
  "RCC_FILE" ∈ fieldnames → "SAMPLE_ID" ∈ fieldnames →
  Forall passes good →
  validated bad = Raise (AssertionError error) →
  check_samplesheet fieldnames (good ++ bad :: rest)
  = SystemExit 1
      (error +:+ " On line " +:+ Py.str (length good + 2) +:+ ".").
Proof.
  intros Hfile Hsample Hgood Hbad. unfold check_samplesheet.
  rewrite (proj2 (required_present fieldnames)) by done. simpl.
  pose proof (validate_rows_first_refused good 0 bad rest RowChecker_init
                _ Hgood Hbad) as Hstop.
  by destruct (validate_rows 0 _ RowChecker_init) as [? ?];
    simpl in Hstop; subst.
Qed.

Lemma first_refused_record_witness :
  Forall passes [record "S1" "a.RCC"; record "S 2" "runs/c.RCC"]
  ∧ validated (record "S 4" "data.txt")
    = Raise (AssertionError (unrecognized_extension "data.txt"))
  ∧ check_samplesheet ["SAMPLE_ID"; "RCC_FILE"]
      ([record "S1" "a.RCC"; record "S 2" "runs/c.RCC"]
       ++ record "S 4" "data.txt" :: [record "" ""])
    = SystemExit 1 (unrecognized_extension "data.txt" +:+ " On line 4.").
Proof.
  assert (Forall passes [record "S1" "a.RCC"; record "S 2" "runs/c.RCC"])
    as Hgood.
  { repeat constructor; apply passes_check; vm_compute; reflexivity. }
  assert (validated (record "S 4" "data.txt")
          = Raise (AssertionError (unrecognized_extension "data.txt")))
    as Hbad by (vm_compute; reflexivity).
  split; [exact Hgood|]. split; [exact Hbad|].
  assert ("RCC_FILE" ∈ ["SAMPLE_ID"; "RCC_FILE"]) as Hfile
    by (apply (bool_decide_unpack _); by vm_compute).
  assert ("SAMPLE_ID" ∈ ["SAMPLE_ID"; "RCC_FILE"]) as Hsample
    by (apply (bool_decide_unpack _); by vm_compute).
  exact (first_refused_record ["SAMPLE_ID"; "RCC_FILE"] _ _ _ _
           Hfile Hsample Hgood Hbad).
Defined.

(** X10: a sheet whose header has the required columns and whose records
    all pass [validate_and_transform], with no key outside the header, is
    always written: its header followed, record by record and in the order
    read, by the validated dicts laid out along the output header.  No
    comparison between records can stop it. *)
Theorem sheet_written_when_all_pass (fieldnames : list string) rows :
  "RCC_FILE" ∈ fieldnames → "SAMPLE_ID" ∈ fieldnames →
  Forall passes rows →
  Forall (λ row, dom row ⊆ list_to_set fieldnames) rows →
  ∃ dicts,
    Forall2 (λ row d, validated row = Ok d) rows dicts
    ∧ check_samplesheet fieldnames rows
      = Written (output_header fieldnames
                 :: (cells (output_header fieldnames) <$> dicts)).
Proof.
  intros Hfile Hsample Hpass Hdom.
  assert (∃ dicts, Forall2 (λ row d, validated row = Ok d) rows dicts)
    as [dicts Hall].
  { clear Hdom. induction Hpass as [|row rows [d Hd] _ [dicts IH]].
    - by exists [].
    - exists (d :: dicts). by constructor. }
  exists dicts. split; [done|].
  apply check_samplesheet_written_iff. split; [done|].
  exists dicts. split; [done|]. split; [|done].
  destruct (output_header_spec fieldnames) as (Hname & Hkeep & _).
  apply Forall_lookup. intros j d Hd.
  destruct (Forall2_lookup_r _ _ _ _ _ Hall Hd) as (row & Hrow & Hv).
  apply validated_ok in Hv as (_ & -> & _).
  pose proof (Forall_lookup_1 _ _ _ _ Hdom Hrow) as Hsub. simpl in Hsub.
  intros k [Hk| ->%elem_of_singleton]%elem_of_union;
    apply elem_of_list_to_set; [|done].
  apply Hkeep. apply Hsub in Hk. by apply elem_of_list_to_set in Hk.
Qed.

Lemma sheet_written_when_all_pass_witness :
  Forall passes [record "S1" "a.RCC"; record "S1" "a.RCC"]
  ∧ ∃ dicts,
      Forall2 (λ row d, validated row = Ok d)
        [record "S1" "a.RCC"; record "S1" "a.RCC"] dicts
      ∧ check_samplesheet ["SAMPLE_ID"; "RCC_FILE"]
          [record "S1" "a.RCC"; record "S1" "a.RCC"]
        = Written (output_header ["SAMPLE_ID"; "RCC_FILE"]
                   :: (cells (output_header ["SAMPLE_ID"; "RCC_FILE"])
                         <$> dicts)).
Proof.
  assert (Forall passes [record "S1" "a.RCC"; record "S1" "a.RCC"])
    as Hpass by (repeat constructor; apply passes_check; vm_compute;
                 reflexivity).
  split; [exact Hpass|].
  apply (sheet_written_when_all_pass ["SAMPLE_ID"; "RCC_FILE"]);
    [apply (bool_decide_unpack _); by vm_compute
    |apply (bool_decide_unpack _); by vm_compute|exact Hpass|].
  apply Forall_cons. split; [apply (bool_decide_unpack _); by vm_compute|].
  apply Forall_cons. split; [apply (bool_decide_unpack _); by vm_compute|].
  apply Forall_nil_2.
Defined.

(** X11: sheets add up: when two lists of records are each written under
    a header, the two lists read one after the other are written too, with
    the records of the first followed by those of the second; so a sheet
    that repeats its records is written with the records repeated. *)
Theorem sheets_concatenate (fieldnames : list string) rows1 rows2
    header1 header2 records1 records2 :
  check_samplesheet fieldnames rows1 = Written (header1 :: records1) →
  check_samplesheet fieldnames rows2 = Written (header2 :: records2) →
  header1 = header2
  ∧ check_samplesheet fieldnames (rows1 ++ rows2)
    = Written (header1 :: records1 ++ records2).
Proof.
  intros (Hreq & dicts1 & Hall1 & Hdom1 & [= -> ->])%check_samplesheet_written_iff.
  intros (_ & dicts2 & Hall2 & Hdom2 & [= -> ->])%check_samplesheet_written_iff.
  split; [done|]. apply check_samplesheet_written_iff. split; [done|].
  exists (dicts1 ++ dicts2). split; [by apply Forall2_app|].
  split; [by apply Forall_app|]. by rewrite fmap_app.
Qed.

Lemma sheets_concatenate_witness :
  check_samplesheet ["SAMPLE_ID"; "RCC_FILE"] [record "S1" "a.RCC"]
  = Written [["SAMPLE_ID"; "RCC_FILE"; "RCC_FILE_NAME"];
             ["S1"; "a.RCC"; "a.RCC"]]
  ∧ check_samplesheet ["SAMPLE_ID"; "RCC_FILE"]
      ([record "S1" "a.RCC"] ++ [record "S1" "a.RCC"])
    = Written ([["SAMPLE_ID"; "RCC_FILE"; "RCC_FILE_NAME"]]
               ++ [["S1"; "a.RCC"; "a.RCC"]] ++ [["S1"; "a.RCC"; "a.RCC"]]).
Proof.
  assert (check_samplesheet ["SAMPLE_ID"; "RCC_FILE"] [record "S1" "a.RCC"]
          = Written [["SAMPLE_ID"; "RCC_FILE"; "RCC_FILE_NAME"];
                     ["S1"; "a.RCC"; "a.RCC"]]) as Hout
    by (vm_compute; reflexivity).
  split; [exact Hout|].
  exact (proj2 (sheets_concatenate _ _ _ _ _ _ _ Hout Hout)).
Defined.

(** For dicts of strings whose keys are the columns of the header, the
    loop over the records and the writing end in an exit with status 1 or
    in a written sheet. *)
Lemma string_records_exit_or_written (fieldnames : list string) rows :
  Forall (λ row, dom row = list_to_set fieldnames) rows →
  (∃ critical, check_samplesheet fieldnames rows = SystemExit 1 critical)
  ∨ (∃ out, check_samplesheet fieldnames rows = Written out).
Proof.
  intros Hdom.
  destruct (decide ("RCC_FILE" ∈ fieldnames)) as [Hfile|Hfile];
    [|left; apply missing_header; by left].
  destruct (decide ("SAMPLE_ID" ∈ fieldnames)) as [Hsample|Hsample];
    [|left; apply missing_header; by right].
  destruct (first_refused rows)
    as [Hpass|(good & bad & rest & e & -> & Hgood & Hbad)].
  - right.
    assert (∃ dicts, Forall2 (λ row d, validated row = Ok d) rows dicts)
      as [dicts Hall].
    { clear Hdom. induction Hpass as [|row rows [d Hd] _ [dicts IH]].
      - by exists [].
      - exists (d :: dicts). by constructor. }
    eexists. apply check_samplesheet_written_iff. split; [done|].
    exists dicts. split; [done|]. split; [|done].
    destruct (output_header_spec fieldnames) as (Hname & Hkeep & _).
    apply Forall_lookup. intros j d Hd.
    destruct (Forall2_lookup_r _ _ _ _ _ Hall Hd) as (row & Hrow & Hv).
    apply validated_ok in Hv as (_ & -> & _).
    pose proof (Forall_lookup_1 _ _ _ _ Hdom Hrow) as Hsub. simpl in Hsub.
    rewrite Hsub.
    intros k [Hk| ->%elem_of_singleton]%elem_of_union;
      apply elem_of_list_to_set; [|done].
    apply Hkeep. by apply elem_of_list_to_set in Hk.
  - left.
    apply Forall_app in Hdom as [_ [Hbaddom _]%Forall_cons].
    destruct (validated_raise bad e) as [error ->]; [..|done|].
    + apply elem_of_dom. rewrite Hbaddom. by apply elem_of_list_to_set.
    + apply elem_of_dom. rewrite Hbaddom. by apply elem_of_list_to_set.
    + unfold check_samplesheet.
      rewrite (proj2 (required_present fieldnames)) by done. simpl.
      pose proof (validate_rows_first_refused good 0 bad rest RowChecker_init
                    _ Hgood Hbad) as Hstop.
      destruct (validate_rows 0 _ RowChecker_init) as [? ?].
      simpl in Hstop. subst. simpl. eauto.
Qed.

(** ** Reading back what was written *)

Lemma cells_fmap header (d : gmap string string) :
  cells header d = (λ key, default "" (d !! key)) <$> header.
Proof.
  unfold cells. induction header as [|k header IH]; [done|].
  simpl. by f_equal.
Qed.

Lemma DictReader_lookup (f : string → string) (header : list string) :
  ∀ (acc : gmap string string) k,
    foldl (λ d kv, <[kv.1 := kv.2]> d) acc (zip header (f <$> header)) !! k
    = if decide (k ∈ header) then Some (f k) else acc !! k.
Proof.
  induction header as [|h header IH]; intros acc k.
  - by destruct (decide (k ∈ [])) as [Hin%not_elem_of_nil|].
  - rewrite fmap_cons. cbn [zip zip_with foldl]. rewrite IH. simpl.
    destruct (decide (k ∈ header)) as [Hin|Hin].
    + rewrite decide_True; [done|]. by right.
    + destruct (decide (h = k)) as [->|Hne].
      * rewrite lookup_insert_eq, decide_True; [done|]. by left.
      * rewrite lookup_insert_ne by done. rewrite decide_False; [done|].
        intros [?|?]%elem_of_cons; congruence.
Qed.

Lemma DictReader_next_dom (fieldnames : list string) :
  ∀ cells (acc : gmap string string),
    length cells = length fieldnames →
    dom (foldl (λ d kv, <[kv.1 := kv.2]> d) acc (zip fieldnames cells))
    = dom acc ∪ list_to_set fieldnames.
Proof.
  induction fieldnames as [|h fieldnames IH]; intros [|c cells] acc Hlen;
    simpl in *; try done.
  - set_solver.
  - rewrite IH by lia. rewrite dom_insert_L. set_solver.
Qed.

(** X12: once the sheet has been read into records that have exactly one
    cell for each column of the header, which [csv.DictReader] turns into
    dicts of strings keyed by the columns, no exception leaves the rest of
    [check_samplesheet]: the checks find every key they read and
    [DictWriter] finds no key outside its header, so the run either exits
    with status 1 or writes the sheet.  (Records with fewer or more cells,
    which give dicts with [None] in them, are not covered.) *)
Theorem no_exception_escapes (fieldnames : list string) records rows :
  mapM (csv.DictReader_next fieldnames) records = Some rows →
  (∃ critical, check_samplesheet fieldnames rows = SystemExit 1 critical)
  ∨ (∃ out, check_samplesheet fieldnames rows = Written out).
Proof.
  intros Hread%mapM_Some. apply string_records_exit_or_written.
  apply Forall_lookup. intros i row Hrow.
  destruct (Forall2_lookup_r _ _ _ _ _ Hread Hrow) as (cells & _ & Hnext).
  unfold csv.DictReader_next in Hnext.
  destruct (Nat.eqb_spec (length cells) (length fieldnames)) as [Hlen|];
    [|done].
  injection Hnext as <-. rewrite DictReader_next_dom by done.
  rewrite dom_empty_L. set_solver.
Qed.

Lemma no_exception_escapes_witness :
  mapM (csv.DictReader_next ["SAMPLE_ID"; "RCC_FILE"])
    [["S1"; "a.RCC"]; [""; "x"]]
  = Some [record "S1" "a.RCC"; record "" "x"]
  ∧ ((∃ critical,
        check_samplesheet ["SAMPLE_ID"; "RCC_FILE"]
          [record "S1" "a.RCC"; record "" "x"] = SystemExit 1 critical)
     ∨ (∃ out,
          check_samplesheet ["SAMPLE_ID"; "RCC_FILE"]
            [record "S1" "a.RCC"; record "" "x"] = Written out)).
Proof.
  assert (mapM (csv.DictReader_next ["SAMPLE_ID"; "RCC_FILE"])
            [["S1"; "a.RCC"]; [""; "x"]]
          = Some [record "S1" "a.RCC"; record "" "x"]) as Hread
    by (vm_compute; reflexivity).
  split; [exact Hread|].
  exact (no_exception_escapes _ _ _ Hread).
Defined.

(** The dict read back from the cells written for [d]. *)
Lemma DictReader_cells header (d : gmap string string) :
  ∃ d', csv.DictReader_next header (cells header d) = Some d'
    ∧ (∀ k, d' !! k = if decide (k ∈ header)
                      then Some (default "" (d !! k)) else None)
    ∧ cells header d' = cells header d.
Proof.
  unfold csv.DictReader_next. rewrite cells_fmap, length_fmap, Nat.eqb_refl.
  eexists. split; [done|].
  assert (∀ k, foldl (λ d0 kv, <[kv.1:=kv.2]> d0) (∅ : gmap string string)
                 (zip header ((λ key, default "" (d !! key)) <$> header)) !! k
               = if decide (k ∈ header)
                 then Some (default "" (d !! k)) else None) as Hlook.
  { intros k. rewrite DictReader_lookup. by rewrite lookup_empty. }
  split; [done|]. rewrite cells_fmap.
  apply list_fmap_ext. intros i k Hk. rewrite Hlook.
  rewrite decide_True; [done|]. by eapply list_elem_of_lookup_2.
Qed.

(** X13: on dicts, the written records are stable under the driver: the
    dicts [csv.DictReader] makes of the written records and the written
    header, cell for column, all pass again, and [check_samplesheet] on
    that header and those dicts writes the same header and the same
    records.  This says nothing about how the text of the output is read
    back: a dialect sniffed from it may change the cells (a quote
    character found in them, say) before they get here. *)
Theorem written_records_stable (fieldnames : list string) rows
    header records :
  check_samplesheet fieldnames rows = Written (header :: records) →
  ∃ rows',
    mapM (csv.DictReader_next header) records = Some rows'
    ∧ check_samplesheet header rows' = Written (header :: records).
Proof.
  intros ([Hfile Hsample] & dicts & Hall & Hdom & [= -> ->])%check_samplesheet_written_iff.
  set (header := output_header fieldnames) in *.
  destruct (output_header_spec fieldnames) as (Hname & Hkeep & _).
  fold header in Hname, Hkeep.
  assert (∃ rows',
            Forall2 (λ d d', csv.DictReader_next header (cells header d)
                             = Some d'
                             ∧ accepted_form d'
                             ∧ dom d' ⊆ list_to_set header
                             ∧ cells header d' = cells header d)
                    dicts rows') as [rows' Hback].
  { clear Hdom. induction Hall as [|row d rows dicts Hd _ [rows' IH]].
    - by exists [].
    - destruct (DictReader_cells header d) as (d' & Hread & Hlook & Hcells).
      exists (d' :: rows'). constructor; [|done].
      split; [done|]. split; [|split; [|done]].
      + apply validated_ok in Hd as ((s & f & n & Hs & ? & ? & Hf & ? & ?
                                       & Hn & ?) & _).
        exists s, f, n. rewrite !Hlook.
        rewrite !decide_True by (by (done || apply Hkeep)).
        rewrite Hs, Hf, Hn. by repeat split.
      + intros k [v Hv]%elem_of_dom. rewrite Hlook in Hv.
        apply elem_of_list_to_set. by destruct (decide (k ∈ header)). }
  exists rows'. split.
  - apply mapM_Some. apply Forall2_fmap_l.
    eapply Forall2_impl; [exact Hback|]. by intros d d' (? & _).
  - apply check_samplesheet_written_iff.
    destruct (output_header_spec header) as (_ & _ & ->); [|done].
    split; [split; by apply Hkeep|].
    exists rows'. split; [|split].
    + apply Forall2_same_length_lookup_2; [done|].
      intros i d1 d2 Hd1 Hd2. rewrite Hd1 in Hd2. injection Hd2 as <-.
      destruct (Forall2_lookup_r _ _ _ _ _ Hback Hd1) as (d & _ & _ & Hform & _).
      by apply accepted_form_validated.
    + apply Forall_lookup. intros i d' Hd'.
      by destruct (Forall2_lookup_r _ _ _ _ _ Hback Hd') as (d & _ & _ & _ & ? & _).
    + f_equal. apply list_eq. intros i. rewrite !list_lookup_fmap.
      destruct (dicts !! i) as [d|] eqn:Hd; simpl.
      * destruct (Forall2_lookup_l _ _ _ _ _ Hback Hd)
          as (d' & Hd' & _ & _ & _ & Hcells).
        rewrite Hd'. simpl. by rewrite Hcells.
      * apply Forall2_length in Hback.
        rewrite (proj2 (lookup_ge_None rows' i)); [done|].
        apply lookup_ge_None in Hd. lia.
Qed.

Lemma written_records_stable_witness :
  check_samplesheet ["SAMPLE_ID"; "TIME"; "RCC_FILE"]
    [<["TIME" := "4h"]> (record "S 2" "runs/c.RCC")]
  = Written [["SAMPLE_ID"; "TIME"; "RCC_FILE"; "RCC_FILE_NAME"];
             ["S_2"; "4h"; "runs/c.RCC"; "c.RCC"]]
  ∧ ∃ rows',
      mapM (csv.DictReader_next
              ["SAMPLE_ID"; "TIME"; "RCC_FILE"; "RCC_FILE_NAME"])
        [["S_2"; "4h"; "runs/c.RCC"; "c.RCC"]] = Some rows'
      ∧ check_samplesheet ["SAMPLE_ID"; "TIME"; "RCC_FILE"; "RCC_FILE_NAME"]
          rows'
        = Written [["SAMPLE_ID"; "TIME"; "RCC_FILE"; "RCC_FILE_NAME"];
                   ["S_2"; "4h"; "runs/c.RCC"; "c.RCC"]].
Proof.
  assert (check_samplesheet ["SAMPLE_ID"; "TIME"; "RCC_FILE"]
            [<["TIME" := "4h"]> (record "S 2" "runs/c.RCC")]
          = Written [["SAMPLE_ID"; "TIME"; "RCC_FILE"; "RCC_FILE_NAME"];
                     ["S_2"; "4h"; "runs/c.RCC"; "c.RCC"]]) as Hout
    by (vm_compute; reflexivity).
  split; [exact Hout|].
  exact (written_records_stable _ _ _ _ Hout).
Defined.

(** X14: the written sheet has one record for each record read, in the
    same order, each with one cell for every column of the output header;
    under a column other than the sample and the file-name column the cell
    is the value read, or the empty string when the dict read had no such
    key. *)
Theorem other_columns_pass_through (fieldnames : list string) rows
    header records :
  check_samplesheet fieldnames rows = Written (header :: records) →
  length records = length rows
  ∧ Forall (λ cells, length cells = length header) records
  ∧ ∀ i row pos k,
      rows !! i = Some row → header !! pos = Some k →
      k ≠ _sample_col → k ≠ _rcc_file_name →
      ∃ cells, records !! i = Some cells
               ∧ cells !! pos = Some (default "" (row !! k)).
Proof.
  intros (_ & dicts & Hall & _ & [= -> ->])%check_samplesheet_written_iff.
  set (header := output_header fieldnames) in *.
  split; [|split].
  - rewrite length_fmap. symmetry. by eapply Forall2_length.
  - apply Forall_fmap, Forall_forall. intros d _. simpl.
    by rewrite cells_fmap, length_fmap.
  - intros i row pos k Hrow Hk Hk1 Hk2.
    destruct (Forall2_lookup_l _ _ _ _ _ Hall Hrow) as (d & Hd & Hv).
    exists (cells header d). rewrite list_lookup_fmap, Hd. split; [done|].
    rewrite cells_fmap, list_lookup_fmap, Hk. simpl.
    apply validated_ok in Hv as (_ & _ & Hsame). by rewrite Hsame.
Qed.

Lemma other_columns_pass_through_witness :
  check_samplesheet ["SAMPLE_ID"; "TIME"; "RCC_FILE"]
    [<["TIME" := "4 h"]> (record "S 2" "runs/c.RCC")]
  = Written [["SAMPLE_ID"; "TIME"; "RCC_FILE"; "RCC_FILE_NAME"];
             ["S_2"; "4 h"; "runs/c.RCC"; "c.RCC"]]
  ∧ ∃ cells, [["S_2"; "4 h"; "runs/c.RCC"; "c.RCC"]] !! 0 = Some cells
             ∧ cells !! 1 = Some "4 h".
Proof.
  assert (check_samplesheet ["SAMPLE_ID"; "TIME"; "RCC_FILE"]
            [<["TIME" := "4 h"]> (record "S 2" "runs/c.RCC")]
          = Written [["SAMPLE_ID"; "TIME"; "RCC_FILE"; "RCC_FILE_NAME"];
                     ["S_2"; "4 h"; "runs/c.RCC"; "c.RCC"]]) as Hout
    by (vm_compute; reflexivity).
  split; [exact Hout|].
  destruct (other_columns_pass_through _ _ _ _ Hout) as (_ & _ & Hcell).
  exact (Hcell 0 (<["TIME" := "4 h"]> (record "S 2" "runs/c.RCC")) 1 "TIME"
           eq_refl eq_refl ltac:(discriminate) ltac:(discriminate)).
Defined.

(** ** What validation leaves alone *)

(** X15: whether it returns or raises, [validate_and_transform] changes no
    dict but the one it is given, and in that dict no column but the
    sample and the file-name column: the file reference and every other
    column are as they were. *)
Theorem validation_touches_two_columns a st r st' :
  validate_and_transform a st = (r, st') →
  (∀ b, b ≠ a → heap st' b = heap st b)
  ∧ (∀ k, k ≠ _sample_col → k ≠ _rcc_file_name →
          heap st' a !! k = heap st a !! k)
  ∧ heap st' a !! _rcc_file = heap st a !! _rcc_file.
Proof.
  intros (Ha & Hframe & _)%validate_and_transform_inv.
  split; [done|]. rewrite Ha. split; [apply row_effect_other|].
  by apply row_effect_other.
Qed.

Lemma validation_touches_two_columns_witness :
  validate_and_transform 2 (offered []) = (Ok tt, offered [2])
  ∧ heap (offered [2]) 2 !! _rcc_file = heap (offered []) 2 !! _rcc_file.
Proof.
  assert (validate_and_transform 2 (offered []) = (Ok tt, offered [2]))
    as Hrun by (apply (offered_run []); vm_compute; reflexivity).
  split; [exact Hrun|].
  exact (proj2 (proj2 (validation_touches_two_columns _ _ _ _ Hrun))).
Defined.

(** X16: validation is idempotent on dicts: a dict that
    [validate_and_transform] accepted and rewrote is accepted as it is,
    without a further change, when it is offered to a checker again. *)
Theorem validated_idempotent row d :
  validated row = Ok d → validated d = Ok d.
Proof.
  intros (Hform & _)%validated_ok. by apply accepted_form_validated.
Qed.

Lemma validated_idempotent_witness :
  validated (record "S 2" "runs/c.RCC")
  = Ok (<["RCC_FILE_NAME" := "c.RCC"]> (record "S_2" "runs/c.RCC"))
  ∧ validated (<["RCC_FILE_NAME" := "c.RCC"]> (record "S_2" "runs/c.RCC"))
    = Ok (<["RCC_FILE_NAME" := "c.RCC"]> (record "S_2" "runs/c.RCC")).
Proof.
  assert (validated (record "S 2" "runs/c.RCC")
          = Ok (<["RCC_FILE_NAME" := "c.RCC"]> (record "S_2" "runs/c.RCC")))
    as Hv by (vm_compute; reflexivity).
  split; [exact Hv|].
  exact (validated_idempotent _ _ Hv).
Defined.
